(** * boekhouder: the import run, its rule engine and its handlers

    A shallow embedding of [boekhouder/data.py], [boekhouder/importer.py]
    and the [import] command of [boekhouder/cmd.py], followed by the
    properties of the reconciliation-and-classification engine.

    Conventions of the embedding:
    - a [Decimal] is a finite decimal of two places ([DEC_2]), given by the
      integer number of its hundredths, so [Decimal("25.00")] is [2500] and
      [Decimal(1)] is [100]; Python compares decimals by value, which is [=]
      on that integer; unary minus goes through the decimal context and
      rounds to its 28 significant digits ([Decimal_neg]);
    - a Python [dict] with string keys is a [gmap string _], a [set] of
      strings a [gset string];
    - a Python exception is the [Raise] branch of [result]. *)

From stdpp Require Import base gmap sets list strings sorting.
From Stdlib Require Import ZArith Lia.

Open Scope string_scope.
Open Scope Z_scope.

(** ** Python values *)

Definition Decimal := Z.

(** The precision of the default decimal context. *)
Definition prec : Z := 28.

(** How many digits a coefficient has beyond the precision; [fuel] bounds
    the number of digits. *)
Fixpoint excess_digits (fuel : nat) (c : Z) : Z :=
  match fuel with
  | O => 0
  | S fuel => if c <? 10 ^ prec then 0 else 1 + excess_digits fuel (c / 10)
  end.

(** Rounding a coefficient to the precision, [ROUND_HALF_EVEN] as the
    default context does; the result is given with the dropped digits put
    back as zeros, so that it counts the same unit as the argument. *)
Definition round_half_even (c : Z) : Z :=
  let k := excess_digits (Z.to_nat (Z.log2 c)) c in
  let p := 10 ^ k in
  let q := c / p in
  let r := c mod p in
  if (p <? 2 * r) || ((p =? 2 * r) && Z.odd q) then (q + 1) * p else q * p.

(** [-d] on a [Decimal]: the sign is flipped and the result rounded in the
    context. *)
Definition Decimal_neg (d : Decimal) : Decimal :=
  - (Z.sgn d * round_half_even (Z.abs d)).
Arguments Decimal_neg : simpl never.

(** [datetime.date], ordered like Python orders dates. *)
Record date := mkdate { year : Z; month : Z; day : Z }.

Definition date_ltb (a b : date) : bool :=
  (year a <? year b)
  || ((year a =? year b)
      && ((month a <? month b) || ((month a =? month b) && (day a <? day b)))).

(** The exceptions the modelled code can raise. *)
Inductive exn :=
| KeyError (key : string)
| TypeError
| Exception (msg : string).

Inductive result (A : Type) :=
| Ok (a : A)
| Raise (e : exn).
Arguments Ok {A} a.
Arguments Raise {A} e.

#[global] Instance result_ret : MRet result := @Ok.
#[global] Instance result_bind : MBind result := λ A B k r,
  match r with
  | Ok a => k a
  | Raise e => Raise e
  end.

(** [d[k]] on a dict. *)
Definition getitem {V} (d : gmap string V) (k : string) : result V :=
  match d !! k with
  | Some v => Ok v
  | None => Raise (KeyError k)
  end.

(** What [config["accounts"][iban]] finds: nothing when the configuration
    has no ["accounts"] mapping, else what the mapping holds for [iban]. *)
#[global] Instance accounts_lookup
  : Lookup string string (option (gmap string string)) :=
  λ iban accounts, accounts ≫= (λ m, m !! iban).
Arguments accounts_lookup : simpl never.

(** ** data.py: the extract record *)

(** [class XlTransaction]: one row of a bank extract. *)
Record XlTransaction := mkXl {
  account : string;
  booking_date : date;
  value_date : date;
  operation_date : date;
  reference : string;
  description : string;
  amount : Decimal;
  currency : string;
  counterparty_account : string;
  counterparty_name : string;
  message : string
}.

(** The dataclass defaults, [XlTransaction()]. *)
Definition XlTransaction_default : XlTransaction :=
  let epoch := mkdate 1970 1 1 in
  mkXl "" epoch epoch epoch "" "" 0 "EUR" "" "" "".

(** ** beancount.core: the parts the handlers build

    [Amount.currency], [Posting.account], [Posting.meta], [Posting.flag] and
    [Transaction.date] carry a prefix where the plain name is taken. *)

Record Amount := mkAmount { number : Decimal; amount_currency : string }.

Record Posting := mkPosting {
  posting_account : string;
  units : Amount;
  cost : option Amount;
  price : option Amount;
  posting_meta : gmap string string;
  posting_flag : option string
}.

Record Transaction := mkTransaction {
  txn_date : date;
  meta : gmap string string;
  flag : string;
  payee : string;
  narration : string;
  tags : gset string;
  links : gset string;
  postings : list Posting
}.

(** ** importer.py: handlers and filters *)

(** The [replace] mapping of a handler's YAML, as [dataclasses.replace]
    accepts it: each key is a field of [XlTransaction] and carries a value of
    that field's type.  (A key that is not a field makes
    [dataclasses.replace] raise, and a value of another type fails later;
    such mappings are outside this type, and the handlers are modelled on the
    mappings of this type only.) *)
Record Replacements := mkReplacements {
  r_account : option string;
  r_booking_date : option date;
  r_value_date : option date;
  r_operation_date : option date;
  r_reference : option string;
  r_description : option string;
  r_amount : option Decimal;
  r_currency : option string;
  r_counterparty_account : option string;
  r_counterparty_name : option string;
  r_message : option string
}.

(** The empty mapping [{}]. *)
Definition no_replacements : Replacements :=
  mkReplacements None None None None None None None None None None None.

(** [dataclasses.replace(txn, **replacements)]. *)
Definition dataclasses_replace (txn : XlTransaction) (r : Replacements)
  : XlTransaction :=
  {| account := default (account txn) (r_account r);
     booking_date := default (booking_date txn) (r_booking_date r);
     value_date := default (value_date txn) (r_value_date r);
     operation_date := default (operation_date txn) (r_operation_date r);
     reference := default (reference txn) (r_reference r);
     description := default (description txn) (r_description r);
     amount := default (amount txn) (r_amount r);
     currency := default (currency txn) (r_currency r);
     counterparty_account :=
       default (counterparty_account txn) (r_counterparty_account r);
     counterparty_name :=
       default (counterparty_name txn) (r_counterparty_name r);
     message := default (message txn) (r_message r) |}.

(** The three handler classes with the attributes their [__init__] stores:
    [Handler] itself (registered under [None]), [Categorize] and
    [Membership].  [monthly_cost] is already quantized to two places. *)
Inductive Handler :=
| Handler_base (replacements : Replacements)
| Categorize (replacements : Replacements) (category : string)
| Membership (replacements : Replacements) (member : string)
             (monthly_cost : Decimal).

Definition replacements (self : Handler) : Replacements :=
  match self with
  | Handler_base r | Categorize r _ | Membership r _ _ => r
  end.

(** [type(self) is Handler]. *)
Definition is_Handler (self : Handler) : bool :=
  match self with
  | Handler_base _ => true
  | _ => false
  end.

(** [DEFAULT_HANDLER = Handler({})]. *)
Definition DEFAULT_HANDLER : Handler := Handler_base no_replacements.

(** [Membership.POS_1 = Decimal(1)]. *)
Definition POS_1 : Decimal := 100.

(** [Handler.source_type]; no subclass overrides it. *)
Definition source_type (self : Handler) (txn : XlTransaction) : string :=
  if 0 <? amount txn then "Income" else "Expenses".

(** [default_source], dispatched on the class of [self]. *)
Definition default_source (self : Handler) (txn : XlTransaction) : string :=
  match self with
  | Handler_base _ => "UnaccountedFunds"
  | Categorize _ category => category
  | Membership _ _ _ => "Membership"
  end.

Section boekhouder.

(** [re2] is an external library: its compiled patterns and
    [pattern.match(field)] are parameters of the development. *)
Context {Regexp : Type} (re_match : Regexp → string → bool).

(** [StrFilter = Union[str, re2._Regexp]]; the YAML loader can also put any
    other value in a matcher list, which [_test1] then never accepts. *)
Inductive StrFilter :=
| FStr (s : string)
| FRegexp (r : Regexp)
| FOther.

(** [class Filter], with the matcher lists already through [parse_filter];
    its attributes [message] and [account] are [f_message] and [f_account]
    here, the plain names being those of the record's fields. *)
Record Filter := mkFilter {
  name : list StrFilter;
  kind : list StrFilter;
  f_message : list StrFilter;
  f_account : list StrFilter;
  handler : Handler
}.

(** One iteration of the loop of [Filter._test1]. *)
Definition item_matches (field : string) (item : StrFilter) : bool :=
  match item with
  | FStr s => bool_decide (s = field)
  | FRegexp r => re_match r field
  | FOther => false
  end.

(** The [for item in pattern] loop of [Filter._test1]. *)
Fixpoint _test1_loop (field : string) (pattern : list StrFilter) : bool :=
  match pattern with
  | [] => false
  | item :: rest =>
      if item_matches field item then true else _test1_loop field rest
  end.

(** [Filter._test1]. *)
Definition _test1 (field : string) (pattern : list StrFilter) : bool :=
  if bool_decide (length pattern = 0%nat) then true
  else _test1_loop field pattern.

(** Python's [all] on a list of booleans. *)
Definition all (bs : list bool) : bool := forallb id bs.

(** [Filter.test]. *)
Definition test (self : Filter) (txn : XlTransaction) : bool :=
  all [ _test1 (message txn) (f_message self);
        _test1 (counterparty_account txn) (f_account self);
        _test1 (counterparty_name txn) (name self);
        _test1 (description txn) (kind self) ].

(** ** data.py: the repository *)

(** [class Repository]: [config["filters"]], [config["accounts"]] when the
    configuration has that key, and the ledger and extract indexes. *)
Record Repository := mkRepository {
  config_filters : list Filter;
  config_accounts : option (gmap string string);
  bc_txn_map : gmap string Transaction;
  xl_txns : list XlTransaction;
  xl_txn_map : gmap string XlTransaction
}.

(** [Repository.get_account]: [self.config["accounts"][iban]]. *)
Definition get_account (self : Repository) (iban : string) : result string :=
  accounts ← match config_accounts self with
             | Some accounts => Ok accounts
             | None => Raise (KeyError "accounts")
             end;
  getitem accounts iban.

(** The inner loop of [load_extracts]: index the records of one file. *)
Definition index_txns (txns : list XlTransaction)
    (m : gmap string XlTransaction) : gmap string XlTransaction :=
  foldl (λ m txn, if bool_decide (reference txn = "") then m
                  else <[reference txn := txn]> m) m txns.

(** The outer loop of [load_extracts] over the decoded files.  [import_file]
    returns [None] for a file it skips, and [extend(None)] raises. *)
Fixpoint load_files (files : list (option (list XlTransaction)))
    (xs : list XlTransaction) (m : gmap string XlTransaction)
  : result (list XlTransaction * gmap string XlTransaction) :=
  match files with
  | [] => Ok (xs, m)
  | None :: _ => Raise TypeError
  | Some txns :: rest => load_files rest (xs ++ txns)%list (index_txns txns m)
  end.

(** [Repository.load_extracts], given what [import_file] returned for each
    entry of the extract directory, in [os.listdir] order. *)
Definition load_extracts (self : Repository)
    (files : list (option (list XlTransaction))) : result Repository :=
  r ← load_files files [] ∅;
  mret {| config_filters := config_filters self;
          config_accounts := config_accounts self;
          bc_txn_map := bc_txn_map self;
          xl_txns := r.1;
          xl_txn_map := r.2 |}.

(** ** importer.py: handling a record *)

(** [Handler.handle], the method body of the base class; [self] may be an
    instance of a subclass. *)
Definition Handler_handle (self : Handler) (repo : Repository)
    (txn : XlTransaction) : result Transaction :=
  let meta : gmap string string := {[ "reference" := reference txn ]} in
  let txn := dataclasses_replace txn (replacements self) in
  acct ← get_account repo (account txn);
  mret {| txn_date := booking_date txn;
          meta := meta;
          flag := if is_Handler self then "?" else "!";
          payee := counterparty_name txn;
          narration := message txn;
          tags := ∅;
          links := ∅;
          postings :=
            [ mkPosting acct (mkAmount (amount txn) (currency txn))
                        None None ∅ None;
              mkPosting (source_type self txn ++ ":"
                           ++ default_source self txn)%string
                        (mkAmount (Decimal_neg (amount txn)) (currency txn))
                        None None ∅ None ] |}.

(** [Membership.handle]. *)
Definition Membership_handle (self : Handler) (member : string)
    (monthly_cost : Decimal) (repo : Repository) (txn : XlTransaction)
  : result Transaction :=
  if bool_decide (monthly_cost ≠ amount txn)
  then Handler_handle DEFAULT_HANDLER repo txn
  else
    new_txn ← Handler_handle self repo txn;
    mret {| txn_date := txn_date new_txn;
            meta := meta new_txn;
            flag := flag new_txn;
            payee := payee new_txn;
            narration := narration new_txn;
            tags := tags new_txn ∪ {[ "membership" ]};
            links := links new_txn;
            postings :=
              ((postings new_txn
                  ++ [ mkPosting "Assets:Membership"
                                 (mkAmount POS_1 "MEMBERSHIP_MONTH")
                                 None None ∅ None ])
                 ++ [ mkPosting ("Liabilities:Members:" ++ member)%string
                                (mkAmount (Decimal_neg POS_1)
                                          "MEMBERSHIP_MONTH")
                                None None ∅ None ])%list |}.

(** [handler.handle(repo, txn)]: method resolution on the class of [self]. *)
Definition handle (self : Handler) (repo : Repository) (txn : XlTransaction)
  : result Transaction :=
  match self with
  | Membership _ member monthly_cost =>
      Membership_handle self member monthly_cost repo txn
  | _ => Handler_handle self repo txn
  end.

(** ** cmd.py: the import command *)

(** The [for filter in repo.config.get("filters", []) ... else] loop. *)
Fixpoint select_handler (filters : list Filter) (txn : XlTransaction)
  : Handler :=
  match filters with
  | [] => DEFAULT_HANDLER
  | filter :: rest =>
      if test filter txn then handler filter else select_handler rest txn
  end.

(** The [for txn in new_txn_ids] loop, threading [processed] and
    [new_txns]; [ids] is the set in the order the loop visits it. *)
Fixpoint classify_loop (repo : Repository) (ids : list string)
    (processed : gset string) (new_txns : list Transaction)
  : result (list Transaction) :=
  match ids with
  | [] => Ok new_txns
  | id :: rest =>
      txn ← getitem (xl_txn_map repo) id;
      if bool_decide (reference txn ∈ processed)
      then classify_loop repo rest processed new_txns
      else
        let processed := processed ∪ {[ reference txn ]} in
        let handler := select_handler (config_filters repo) txn in
        new_txn ← handle handler repo txn;
        classify_loop repo rest processed (new_txns ++ [new_txn])%list
  end.

(** The records for which an iteration of that loop reaches the filters, in
    order: the loop above without the handling.  (An identifier missing from
    the index ends the real loop with a [KeyError].) *)
Fixpoint classified (repo : Repository) (ids : list string)
    (processed : gset string) : list XlTransaction :=
  match ids with
  | [] => []
  | id :: rest =>
      match xl_txn_map repo !! id with
      | None => []
      | Some txn =>
          if bool_decide (reference txn ∈ processed)
          then classified repo rest processed
          else txn :: classified repo rest (processed ∪ {[ reference txn ]})
      end
  end.

(** [new_txns.sort(key=lambda txn: txn.date)]: a stable sort. *)
Fixpoint insert_by_date (t : Transaction) (l : list Transaction)
  : list Transaction :=
  match l with
  | [] => [t]
  | u :: l' =>
      if date_ltb (txn_date u) (txn_date t) then u :: insert_by_date t l'
      else t :: l
  end.

Definition sort_by_date (l : list Transaction) : list Transaction :=
  foldr insert_by_date [] l.

(** What the command prints with [click.echo]. *)
Inductive echo_msg :=
| MsgOrphans            (* WARNING: Transactions in ledger not found in extracts *)
| MsgPassV              (* Pass -v for details *)
| MsgOrphan (d : date) (txnid : string) (narration : string)
| MsgNoNew              (* No new transactions found *)
| MsgTodos              (* TODOs: *)
| MsgCheck (file : nat * string)   (* - check {auto_file} for accuracy *)
| MsgFix (file : nat * string).    (* - Fix the items in {manual_file} *)

(** The observable actions of a run.  An output file is named by its
    sequence number of the day and its suffix; [ScanBeancount] is the
    rewriting of [ledger.beancount] by [scan_beancount], [PrintErrors] the
    printing of the ledger loader's errors on the error stream. *)
Inductive effect :=
| Echo (msg : echo_msg) (err : bool)
| PrintEntries (entries : list Transaction)
| WriteEntries (file : nat * string) (entries : list Transaction)
| ScanBeancount
| LogError
| PrintErrors (errors : list string).

(** The order in which Python iterates a set of strings. *)
Context (set_iter : gset string → list string).

(** Lines 65-72: the report on ledger references absent from the extracts. *)
Definition orphan_report (repo : Repository) (verbose : bool)
    (bc_txns xl_txns : gset string) : result (list effect) :=
  if bool_decide (bc_txns ∖ xl_txns ≠ ∅) then
    if negb verbose then
      Ok [ Echo MsgOrphans (negb verbose); Echo MsgPassV true ]
    else
      lines ← mapM (λ txnid,
                 txn ← getitem (bc_txn_map repo) txnid;
                 mret (Echo (MsgOrphan (txn_date txn) txnid (narration txn))
                            false))
               (set_iter (bc_txns ∖ xl_txns));
      mret (Echo MsgOrphans (negb verbose) :: lines)
  else Ok [].

(** The [for i in range(1,1000)] search for a free sequence number;
    [taken i] says that [glob] finds a file for number [i]. *)
Definition find_base (taken : nat → bool) : option nat :=
  List.find (λ i, negb (taken i)) (seq 1 999).

(** The two comprehensions that split [new_txns] over the output files. *)
Definition auto_entries (new_txns : list Transaction) : list Transaction :=
  filter (λ txn, flag txn = "!") new_txns.

Definition manual_entries (new_txns : list Transaction) : list Transaction :=
  filter (λ txn, flag txn ≠ "!") new_txns.

(** Lines 94-120: print or write the sorted transactions. *)
Definition emit (dry_run : bool) (taken : nat → bool)
    (new_txns : list Transaction) : list effect :=
  if dry_run then [ PrintEntries new_txns ]
  else
    match find_base taken with
    | None => [ LogError ]
    | Some base =>
        let auto_file := (base, "_auto.beancount") in
        let auto_entries := auto_entries new_txns in
        let manual_file := (base, "_manual.beancount") in
        let manual_entries := manual_entries new_txns in
        ([ WriteEntries auto_file auto_entries;
           WriteEntries manual_file manual_entries;
           ScanBeancount;
           Echo MsgTodos false ]
         ++ (if bool_decide (auto_entries ≠ [])
             then [ Echo (MsgCheck auto_file) false ] else [])
         ++ (if bool_decide (manual_entries ≠ [])
             then [ Echo (MsgFix manual_file) false ] else []))%list
    end.

(** [cmd_import] from line 61 on, from the repository that [Repository()]
    constructed on line 60 and from what [import_file] returned for each
    directory entry: the effects performed, in order, and whether the command
    returned or raised.  The whole command, construction and decoding
    included, is [import_command] below. *)
Definition cmd_import (repo : Repository)
    (files : list (option (list XlTransaction))) (verbose dry_run : bool)
    (taken : nat → bool) : list effect * result () :=
  match load_extracts repo files with
  | Raise e => ([], Raise e)
  | Ok repo =>
      let bc_txns := dom (bc_txn_map repo) in
      let xl_txns := dom (xl_txn_map repo) in
      match orphan_report repo verbose bc_txns xl_txns with
      | Raise e => ([], Raise e)
      | Ok warned =>
          let new_txn_ids := xl_txns ∖ bc_txns in
          if bool_decide (new_txn_ids = ∅)
          then ((warned ++ [ Echo MsgNoNew true ])%list, Ok ())
          else
            match classify_loop repo (set_iter new_txn_ids) ∅ [] with
            | Raise e => (warned, Raise e)
            | Ok new_txns =>
                ((warned ++ emit dry_run taken (sort_by_date new_txns))%list,
                 Ok ())
            end
      end
  end.

End boekhouder.


(** * The rest of the repository and of the importer's entry point *)

(** A directive of the ledger, as [beancount.loader.load_file] returns it:
    a transaction, or anything else (open, balance, ...). *)
Inductive Directive :=
| DTransaction (t : Transaction)
| DOther.

(** The loop of [Repository.__init__] that computes the transaction map,
    from a map [m]. *)
Definition index_directives (bc_ledger : list Directive)
    (m : gmap string Transaction) : gmap string Transaction :=
  foldl (λ m directive,
           match directive with
           | DOther => m
           | DTransaction t =>
               match meta t !! "reference" with
               | Some ref => <[ref := t]> m
               | None => m
               end
           end) m bc_ledger.

(** [bc_txn_map] as [Repository.__init__] leaves it. *)
Definition index_ledger (bc_ledger : list Directive)
  : gmap string Transaction :=
  index_directives bc_ledger ∅.

(** [sorted] on names: Python orders strings by code point, which on their
    encoding is the order of [String.leb]. *)
Fixpoint insert_name (n : string) (l : list string) : list string :=
  match l with
  | [] => [n]
  | m :: l' => if String.leb n m then n :: l else m :: insert_name n l'
  end.

Definition sorted (names : list string) : list string :=
  foldr insert_name [] names.

(** The double quote. *)
Definition dquote : string := String (Ascii.ascii_of_nat 34) EmptyString.

(** [Repository.scan_beancount]: the lines written to [ledger.beancount],
    given the entries of the transaction directory. *)
Definition scan_beancount (listdir : list string) : list string :=
  (λ name, "include " ++ dquote ++ "transactions/" ++ name ++ dquote)%string
    <$> sorted listdir.

Section entry_point.

(** [os.path.splitext] and the spreadsheet decoder [import_xl] are taken as
    given. *)
Context (splitext : string → string * string).
Context (import_xl : string → result (list XlTransaction)).

(** [import_file]: a file that is not a spreadsheet is skipped, and the
    function then returns [None]. *)
Definition import_file (fname : string)
  : result (option (list XlTransaction)) :=
  let ext := (splitext fname).2 in
  if bool_decide (ext = ".xlsx") then
    txns ← import_xl fname; mret (Some txns)
  else Ok None.

(** The loop of [load_extracts] over the paths of the directory entries,
    decoding each file when its turn comes. *)
Fixpoint load_paths (paths : list string)
    (xs : list XlTransaction) (m : gmap string XlTransaction)
  : result (list XlTransaction * gmap string XlTransaction) :=
  match paths with
  | [] => Ok (xs, m)
  | path :: rest =>
      txns ← import_file path;
      match txns with
      | None => Raise TypeError
      | Some txns => load_paths rest (xs ++ txns)%list (index_txns txns m)
      end
  end.

End entry_point.

Section command.

Context {Regexp : Type} (re_match : Regexp → string → bool).
Context (set_iter : gset string → list string).
Context (splitext : string → string * string).
Context (import_xl : string → result (list XlTransaction)).

(** [Repository.__init__], given what [load_config] built or raised and
    what [beancount.loader.load_file] returned for the ledger (its directives
    and its errors).  The include file is rewritten before the ledger is
    loaded. *)
Definition Repository_init
    (config : result (list (Filter (Regexp:=Regexp))
                      * option (gmap string string)))
    (ledger_data : list Directive) (errors : list string)
  : list effect * result (Repository (Regexp:=Regexp)) :=
  match config with
  | Raise e => ([], Raise e)
  | Ok config =>
      if bool_decide (errors ≠ []) then
        ([ ScanBeancount; PrintErrors errors ],
         Raise (Exception "Unable to load beancount file"))
      else
        ([ ScanBeancount ],
         Ok {| config_filters := config.1;
               config_accounts := config.2;
               bc_txn_map := index_ledger ledger_data;
               xl_txns := [];
               xl_txn_map := ∅ |})
  end.

(** Lines 63-120 of [cmd_import]: the run once the extracts are loaded. *)
Definition cmd_import_tail (repo : Repository (Regexp:=Regexp))
    (verbose dry_run : bool) (taken : nat → bool)
  : list effect * result () :=
  let bc_txns := dom (bc_txn_map repo) in
  let xl_txns := dom (xl_txn_map repo) in
  match orphan_report set_iter repo verbose bc_txns xl_txns with
  | Raise e => ([], Raise e)
  | Ok warned =>
      let new_txn_ids := xl_txns ∖ bc_txns in
      if bool_decide (new_txn_ids = ∅)
      then ((warned ++ [ Echo MsgNoNew true ])%list, Ok ())
      else
        match classify_loop re_match repo (set_iter new_txn_ids) ∅ [] with
        | Raise e => (warned, Raise e)
        | Ok new_txns =>
            ((warned ++ emit dry_run taken (sort_by_date new_txns))%list,
             Ok ())
        end
  end.

(** The whole body of [cmd_import]: line 60 constructs the repository, line
    61 loads the extracts, decoding the directory entries [paths] one after
    the other, and lines 63-120 follow. *)
Definition import_command
    (config : result (list (Filter (Regexp:=Regexp))
                      * option (gmap string string)))
    (ledger_data : list Directive) (errors : list string)
    (paths : list string) (verbose dry_run : bool) (taken : nat → bool)
  : list effect * result () :=
  match Repository_init config ledger_data errors with
  | (constructed, Raise e) => (constructed, Raise e)
  | (constructed, Ok repo) =>
      match load_paths splitext import_xl paths [] ∅ with
      | Raise e => (constructed, Raise e)
      | Ok loaded =>
          let run :=
            cmd_import_tail
              {| config_filters := config_filters repo;
                 config_accounts := config_accounts repo;
                 bc_txn_map := bc_txn_map repo;
                 xl_txns := loaded.1;
                 xl_txn_map := loaded.2 |}
              verbose dry_run taken in
          ((constructed ++ run.1)%list, run.2)
      end
  end.

End command.

(** * Specification vocabulary *)

Section vocabulary.

Context {Regexp : Type} (re_match : Regexp → string → bool).

(** A matcher succeeds on a field: exact-string equality or a pattern
    match. *)
Definition matcher_succeeds (field : string) (item : StrFilter (Regexp:=Regexp))
  : Prop :=
  match item with
  | FStr s => s = field
  | FRegexp r => re_match r field = true
  | FOther => False
  end.

(** A field check passes: no matcher configured, or some matcher succeeds. *)
Definition field_check_passes (field : string)
    (pattern : list (StrFilter (Regexp:=Regexp))) : Prop :=
  pattern = [] ∨ ∃ item, item ∈ pattern ∧ matcher_succeeds field item.

(** Every indexed record is filed under its own reference, which is not
    empty. *)
Definition well_indexed (repo : Repository (Regexp:=Regexp)) : Prop :=
  ∀ k txn, xl_txn_map repo !! k = Some txn → reference txn = k ∧ k ≠ "".

(** The transaction the loop appends for a classified record. *)
Definition handled_as (repo : Repository (Regexp:=Regexp))
    (txn : XlTransaction) (t : Transaction) : Prop :=
  handle (select_handler re_match (config_filters repo) txn) repo txn = Ok t.

End vocabulary.

(** The sum of the posting amounts in one currency. *)
Fixpoint currency_sum (c : string) (ps : list Posting) : Decimal :=
  match ps with
  | [] => 0
  | p :: ps' =>
      (if bool_decide (amount_currency (units p) = c) then number (units p)
       else 0) + currency_sum c ps'
  end.

(** An effect that only prints a message. *)
Definition is_echo (e : effect) : Prop :=
  match e with
  | Echo _ _ => True
  | _ => False
  end.

(** The ["reference"] metadata of a list of transactions. *)
Definition references (ts : list Transaction) : list (option string) :=
  (λ t, meta t !! "reference") <$> ts.

(** A Membership handler declines the records whose amount is not its
    fee; no other handler declines. *)
Definition declines (self : Handler) (txn : XlTransaction) : bool :=
  match self with
  | Membership _ _ monthly_cost => bool_decide (monthly_cost ≠ amount txn)
  | _ => false
  end.

(** The record a handler books: the record as received when the handler
    declines, the record after replacement otherwise. *)
Definition booked_record (self : Handler) (txn : XlTransaction)
  : XlTransaction :=
  if declines self txn then txn
  else dataclasses_replace txn (replacements self).

(** The label of the counter-account of a booked record. *)
Definition booked_label (self : Handler) (txn : XlTransaction) : string :=
  if declines self txn then "UnaccountedFunds" else default_source self txn.

#[global] Instance date_eq_dec : EqDecision date.
Proof. solve_decision. Defined.

(** An effect of a dry run: a message or the printed entries. *)
Definition is_print (e : effect) : Prop :=
  match e with
  | Echo _ _ | PrintEntries _ => True
  | _ => False
  end.

(** * Sample data

    A small repository and a few extract rows on which the statements below
    are exercised.  Patterns are matched here as literal prefixes, and sets
    are iterated in the order of [elements]. *)

Definition sample_match (pattern field : string) : bool :=
  String.prefix pattern field.

Definition sample_row (ref msg : string) (amt : Decimal) (d : Z)
  : XlTransaction :=
  {| account := "BE01";
     booking_date := mkdate 2024 1 d;
     value_date := mkdate 2024 1 d;
     operation_date := mkdate 2024 1 d;
     reference := ref;
     description := "Transfer";
     amount := amt;
     currency := "EUR";
     counterparty_account := "BE99";
     counterparty_name := "Bob";
     message := msg |}.

(** Two rows sharing the reference ["A"], a fee-sized row ["B"], and a row
    without reference. *)
Definition row_a1 : XlTransaction := sample_row "A" "first" 1000 3.
Definition row_a2 : XlTransaction := sample_row "A" "second" 1000 2.
Definition row_b : XlTransaction := sample_row "B" "membership jan" 2500 1.
Definition row_none : XlTransaction := sample_row "" "no reference" 700 4.

(** A row whose amount, 12345678901234567890123456789.01, has 31
    significant digits. *)
Definition row_big : XlTransaction :=
  sample_row "C" "large" 1234567890123456789012345678901 5.

(** One rule: rows of Bob whose message starts with ["member"] pay a
    membership of 25.00. *)
Definition sample_filter : Filter :=
  {| name := [ FStr "Bob" ];
     kind := [];
     f_message := [ FRegexp "member" ];
     f_account := [];
     handler := Membership no_replacements "bob" 2500 |}.

(** A constructed repository with one known IBAN and an empty ledger. *)
Definition sample_repo : Repository :=
  {| config_filters := [ sample_filter ];
     config_accounts := Some {[ "BE01" := "Assets:Bank" ]};
     bc_txn_map := ∅;
     xl_txns := [];
     xl_txn_map := ∅ |}.

(** The same repository once [rows] have been loaded. *)
Definition sample_loaded (rows : list XlTransaction) : Repository :=
  {| config_filters := [ sample_filter ];
     config_accounts := Some {[ "BE01" := "Assets:Bank" ]};
     bc_txn_map := ∅;
     xl_txns := rows;
     xl_txn_map := index_txns rows ∅ |}.

(** A ledger transaction that records reference [ref]. *)
Definition ledger_entry (ref : string) : Transaction :=
  {| txn_date := mkdate 2023 12 31;
     meta := {[ "reference" := ref ]};
     flag := "*";
     payee := "Bob";
     narration := "booked";
     tags := ∅;
     links := ∅;
     postings := [] |}.

(** The sample repository with reference ["A"] already in the ledger. *)
Definition sample_repo_booked : Repository :=
  {| config_filters := [ sample_filter ];
     config_accounts := Some {[ "BE01" := "Assets:Bank" ]};
     bc_txn_map := {[ "A" := ledger_entry "A" ]};
     xl_txns := [];
     xl_txn_map := ∅ |}.

(** The sample repository with [rows] loaded and ["A"] in the ledger. *)
Definition sample_loaded_booked (rows : list XlTransaction) : Repository :=
  {| config_filters := [ sample_filter ];
     config_accounts := Some {[ "BE01" := "Assets:Bank" ]};
     bc_txn_map := {[ "A" := ledger_entry "A" ]};
     xl_txns := rows;
     xl_txn_map := index_txns rows ∅ |}.

(** What the default handler makes of a sample row of positive amount. *)
Definition default_txn_of (row : XlTransaction) : Transaction :=
  {| txn_date := booking_date row;
     meta := {[ "reference" := reference row ]};
     flag := "?";
     payee := "Bob";
     narration := message row;
     tags := ∅;
     links := ∅;
     postings :=
       [ mkPosting "Assets:Bank" (mkAmount (amount row) "EUR")
                   None None ∅ None;
         mkPosting "Income:UnaccountedFunds" (mkAmount (- amount row) "EUR")
                   None None ∅ None ] |}.

(** What the membership handler of [sample_filter] makes of a fee-sized
    sample row. *)
Definition membership_txn_of (row : XlTransaction) : Transaction :=
  {| txn_date := booking_date row;
     meta := {[ "reference" := reference row ]};
     flag := "!";
     payee := "Bob";
     narration := message row;
     tags := {[ "membership" ]};
     links := ∅;
     postings :=
       [ mkPosting "Assets:Bank" (mkAmount 2500 "EUR") None None ∅ None;
         mkPosting "Income:Membership" (mkAmount (-2500) "EUR")
                   None None ∅ None;
         mkPosting "Assets:Membership" (mkAmount 100 "MEMBERSHIP_MONTH")
                   None None ∅ None;
         mkPosting "Liabilities:Members:bob"
                   (mkAmount (-100) "MEMBERSHIP_MONTH") None None ∅ None ] |}.

(** What the default handler makes of [row_big]. *)
Definition big_txn : Transaction :=
  {| txn_date := mkdate 2024 1 5;
     meta := {[ "reference" := "C" ]};
     flag := "?";
     payee := "Bob";
     narration := "large";
     tags := ∅;
     links := ∅;
     postings :=
       [ mkPosting "Assets:Bank"
                   (mkAmount 1234567890123456789012345678901 "EUR")
                   None None ∅ None;
         mkPosting "Income:UnaccountedFunds"
                   (mkAmount (-1234567890123456789012345679000) "EUR")
                   None None ∅ None ] |}.

(** A handler whose [replace] mapping overrides the reference and the
    message. *)
Definition relabel : Replacements :=
  {| r_account := None; r_booking_date := None; r_value_date := None;
     r_operation_date := None; r_reference := Some "X";
     r_description := None; r_amount := None; r_currency := None;
     r_counterparty_account := None; r_counterparty_name := None;
     r_message := Some "relabelled" |}.

Definition relabel_handler : Handler := Categorize relabel "Groceries".

(** What [relabel_handler] makes of [row_a1]. *)
Definition relabelled_a1 : Transaction :=
  {| txn_date := mkdate 2024 1 3;
     meta := {[ "reference" := "A" ]};
     flag := "!";
     payee := "Bob";
     narration := "relabelled";
     tags := ∅;
     links := ∅;
     postings :=
       [ mkPosting "Assets:Bank" (mkAmount 1000 "EUR") None None ∅ None;
         mkPosting "Income:Groceries" (mkAmount (-1000) "EUR")
                   None None ∅ None ] |}.

(** No output file exists yet for today. *)
Definition no_files (i : nat) : bool := false.

(** A ledger with another directive, two transactions recorded under
    ["A"] and one recorded under the empty reference. *)
Definition sample_ledger : list Directive :=
  [ DOther;
    DTransaction (ledger_entry "A");
    DTransaction (ledger_entry "");
    DTransaction (default_txn_of row_a1) ].

(** The sample repository with that ledger loaded. *)
Definition sample_repo_ledger : Repository :=
  {| config_filters := [ sample_filter ];
     config_accounts := Some {[ "BE01" := "Assets:Bank" ]};
     bc_txn_map := index_ledger sample_ledger;
     xl_txns := [];
     xl_txn_map := ∅ |}.

(** What [load_config] builds from the sample configuration, and from the
    same configuration without its accounts. *)
Definition sample_config
  : result (list (Filter (Regexp:=string)) * option (gmap string string)) :=
  Ok ([ sample_filter ], Some {[ "BE01" := "Assets:Bank" ]}).

Definition sample_config_no_accounts
  : result (list (Filter (Regexp:=string)) * option (gmap string string)) :=
  Ok ([ sample_filter ], None).

(** Every sequence number of the day is taken. *)
Definition all_taken (i : nat) : bool := true.

(** An extract directory with one spreadsheet and one text file. *)
Definition sample_splitext (fname : string) : string * string :=
  if bool_decide (fname = "extracts/jan.xlsx") then ("extracts/jan", ".xlsx")
  else if bool_decide (fname = "extracts/feb.xlsx")
       then ("extracts/feb", ".xlsx")
  else if bool_decide (fname = "extracts/notes.txt")
       then ("extracts/notes", ".txt")
  else (fname, "").

Definition sample_import_xl (fname : string) : result (list XlTransaction) :=
  if bool_decide (fname = "extracts/jan.xlsx") then Ok [ row_a1; row_a2 ]
  else if bool_decide (fname = "extracts/feb.xlsx") then Ok [ row_b ]
  else Raise TypeError.

(** * Properties *)

Section properties.

Context {Regexp : Type} (re_match : Regexp → string → bool).
Context (set_iter : gset string → list string).
Hypothesis set_iter_perm : ∀ s, set_iter s ≡ₚ elements s.

Implicit Types (self : Handler) (txn : XlTransaction) (t : Transaction).
Implicit Types (repo : Repository (Regexp:=Regexp)).
Implicit Types (filter : Filter (Regexp:=Regexp)).

(** ** The rule engine *)

Lemma item_matches_spec field item :
  item_matches re_match field item = true ↔ matcher_succeeds re_match field item.
Proof.
  destruct item; simpl; [apply bool_decide_eq_true | done | split; [done | tauto]].
Qed.

Lemma _test1_loop_spec field pattern :
  _test1_loop re_match field pattern = true
  ↔ ∃ item, item ∈ pattern ∧ matcher_succeeds re_match field item.
Proof.
  induction pattern as [|item rest IH]; simpl.
  - split; [done | intros (i & Hi & _); by apply elem_of_nil in Hi].
  - destruct (item_matches re_match field item) eqn:Hm.
    + split; [intros _ | done].
      exists item. split; [left | by apply item_matches_spec].
    + rewrite IH. split.
      * intros (i & Hi & Hs). exists i. split; [by right | done].
      * intros (i & Hi & Hs). apply elem_of_cons in Hi as [-> | Hi].
        -- apply item_matches_spec in Hs. congruence.
        -- eauto.
Qed.

Lemma _test1_spec field pattern :
  _test1 re_match field pattern = true
  ↔ field_check_passes re_match field pattern.
Proof.
  unfold _test1, field_check_passes. destruct pattern as [|item rest].
  - simpl. split; [by left | done].
  - rewrite bool_decide_eq_false_2 by done. rewrite _test1_loop_spec.
    split; [by right | by intros [? | ?]].
Qed.

(** C4: a rule's test returns true exactly when the four field checks
    (counterparty name, description/kind, message, counterparty account) all
    pass, a field check passing exactly when its matcher list is empty or
    one of its matchers succeeds on the record's field. *)
Theorem C4_test_all_fields filter txn :
  test re_match filter txn = true
  ↔ field_check_passes re_match (counterparty_name txn) (name filter)
    ∧ field_check_passes re_match (description txn) (kind filter)
    ∧ field_check_passes re_match (message txn) (f_message filter)
    ∧ field_check_passes re_match (counterparty_account txn)
        (f_account filter).
Proof.
  unfold test, all. simpl.
  rewrite !andb_true_iff, !_test1_spec. unfold id. tauto.
Qed.

(** Filters that reject the record are passed over. *)
Lemma select_handler_skip pre filters txn :
  Forall (λ g, test re_match g txn = false) pre →
  select_handler re_match (pre ++ filters) txn
  = select_handler re_match filters txn.
Proof.
  induction 1 as [|g pre Hg _ IH]; simpl; [done|]. by rewrite Hg.
Qed.

(** ** Handlers *)

(** The account lookup, in terms of what the configuration holds. *)
Lemma get_account_lookup repo iban :
  get_account repo iban
  = match config_accounts repo !! iban with
    | Some acct => Ok acct
    | None => Raise (KeyError (match config_accounts repo with
                               | Some _ => iban
                               | None => "accounts"
                               end))
    end.
Proof.
  unfold get_account.
  destruct (config_accounts repo) as [accounts|]; simpl; [|done].
  unfold getitem. change (Some accounts !! iban) with (accounts !! iban).
  by destruct (accounts !! iban).
Qed.

Lemma Handler_handle_Ok self repo txn t :
  Handler_handle self repo txn = Ok t →
  let txn' := dataclasses_replace txn (replacements self) in
  ∃ acct,
    config_accounts repo !! account txn' = Some acct
    ∧ t = {| txn_date := booking_date txn';
             meta := {[ "reference" := reference txn ]};
             flag := if is_Handler self then "?" else "!";
             payee := counterparty_name txn';
             narration := message txn';
             tags := ∅;
             links := ∅;
             postings :=
               [ mkPosting acct (mkAmount (amount txn') (currency txn'))
                           None None ∅ None;
                 mkPosting (source_type self txn' ++ ":"
                            ++ default_source self txn')%string
                           (mkAmount (Decimal_neg (amount txn')) (currency txn'))
                           None None ∅ None ] |}.
Proof.
  unfold Handler_handle. rewrite get_account_lookup.
  destruct (config_accounts repo !! _) as [acct|] eqn:Hacct; simpl; [|done].
  intros [= <-]. by exists acct.
Qed.

Lemma Handler_handle_registered self repo txn acct :
  config_accounts repo !! account (dataclasses_replace txn (replacements self))
    = Some acct →
  ∃ t, Handler_handle self repo txn = Ok t.
Proof.
  intros Hacct. unfold Handler_handle. rewrite get_account_lookup, Hacct.
  simpl. eauto.
Qed.

Lemma dataclasses_replace_nothing txn :
  dataclasses_replace txn no_replacements = txn.
Proof. by destruct txn. Qed.

Lemma handle_default_Ok repo txn t :
  handle DEFAULT_HANDLER repo txn = Ok t →
  ∃ acct,
    config_accounts repo !! account txn = Some acct
    ∧ t = {| txn_date := booking_date txn;
             meta := {[ "reference" := reference txn ]};
             flag := "?";
             payee := counterparty_name txn;
             narration := message txn;
             tags := ∅;
             links := ∅;
             postings :=
               [ mkPosting acct (mkAmount (amount txn) (currency txn))
                           None None ∅ None;
                 mkPosting (source_type DEFAULT_HANDLER txn
                            ++ ":UnaccountedFunds")%string
                           (mkAmount (Decimal_neg (amount txn)) (currency txn))
                           None None ∅ None ] |}.
Proof.
  intros H. apply Handler_handle_Ok in H. simpl in H.
  by rewrite dataclasses_replace_nothing in H.
Qed.

Lemma handle_default_registered repo txn :
  is_Some (config_accounts repo !! account txn) →
  ∃ t, handle DEFAULT_HANDLER repo txn = Ok t.
Proof.
  intros [acct Hacct]. apply (Handler_handle_registered _ _ _ acct).
  replace (replacements DEFAULT_HANDLER) with no_replacements by done.
  by rewrite dataclasses_replace_nothing.
Qed.

(** C5: the handler used for a record is the one bound to the first rule, in
    list order, whose test returns true; when no rule's test returns true the
    default handler is used, and the transaction it builds carries the
    provisional flag ["?"]. *)
Theorem C5_first_match_else_default filters repo txn :
  (∀ pre filter post,
      filters = (pre ++ filter :: post)%list →
      Forall (λ g, test re_match g txn = false) pre →
      test re_match filter txn = true →
      select_handler re_match filters txn = handler filter)
  ∧ (Forall (λ g, test re_match g txn = false) filters →
     select_handler re_match filters txn = DEFAULT_HANDLER
     ∧ (∀ t, handle (select_handler re_match filters txn) repo txn = Ok t →
             flag t = "?")
     ∧ (is_Some (config_accounts repo !! account txn) →
        ∃ t, handle (select_handler re_match filters txn) repo txn = Ok t)).
Proof.
  split.
  - intros pre filter post -> Hpre Hfilter.
    rewrite select_handler_skip by done. simpl. by rewrite Hfilter.
  - intros Hnone.
    assert (select_handler re_match filters txn = DEFAULT_HANDLER) as ->.
    { rewrite <- (app_nil_r filters). by rewrite select_handler_skip. }
    split; [done|]. split.
    + intros t Ht. apply handle_default_Ok in Ht as (acct & _ & ->). done.
    + apply handle_default_registered.
Qed.

(** Unary minus is exact on a decimal that fits the precision. *)
Lemma excess_digits_fits fuel c : c < 10 ^ prec → excess_digits fuel c = 0.
Proof.
  intros Hc. destruct fuel as [|fuel]; simpl; [done|].
  by rewrite (proj2 (Z.ltb_lt _ _) Hc).
Qed.

Lemma Decimal_neg_exact (d : Decimal) :
  Z.abs d < 10 ^ 28 → Decimal_neg d = - d.
Proof.
  intros Hd. unfold Decimal_neg, round_half_even.
  rewrite excess_digits_fits by exact Hd.
  change (10 ^ 0) with 1. rewrite Z.mod_1_r, Z.div_1_r. simpl.
  rewrite Z.mul_1_r. f_equal. rewrite Z.mul_comm. apply Z.abs_sgn.
Qed.

Lemma Decimal_neg_POS_1 : Decimal_neg POS_1 = -100.
Proof. reflexivity. Qed.

(** The two postings every handler starts from cancel out when the amount
    fits the precision. *)
Lemma currency_sum_pair c acct src a cur :
  Z.abs a < 10 ^ 28 →
  currency_sum c
    [ mkPosting acct (mkAmount a cur) None None ∅ None;
      mkPosting src (mkAmount (Decimal_neg a) cur) None None ∅ None ] = 0.
Proof.
  intros Ha. rewrite (Decimal_neg_exact a Ha). simpl. case_bool_decide; lia.
Qed.

Lemma currency_sum_app c ps qs :
  currency_sum c (ps ++ qs) = currency_sum c ps + currency_sum c qs.
Proof. induction ps as [|p ps IH]; simpl; [done | rewrite IH; lia]. Qed.

(** C6, amended: in every transaction a handler produces from a record whose
    booked amount has at most 28 significant digits, as every amount that was
    quantized in the decimal context has, the posting amounts of each currency
    sum to zero.  (On a longer amount the second posting is the rounded
    opposite of the first.) *)
Theorem C6_postings_balance_within_precision self repo txn t :
  Z.abs (amount (booked_record self txn)) < 10 ^ 28 →
  handle self repo txn = Ok t →
  ∀ c, currency_sum c (postings t) = 0.
Proof.
  intros Hfits Ht c. unfold booked_record, declines in Hfits.
  destruct self as [r | r category | r member monthly_cost].
  - apply Handler_handle_Ok in Ht as (acct & _ & ->).
    apply currency_sum_pair. exact Hfits.
  - apply Handler_handle_Ok in Ht as (acct & _ & ->).
    apply currency_sum_pair. exact Hfits.
  - simpl in Ht. unfold Membership_handle in Ht.
    destruct (bool_decide (monthly_cost ≠ amount txn)).
    + apply Handler_handle_Ok in Ht as (acct & _ & ->).
      apply currency_sum_pair. exact Hfits.
    + destruct (Handler_handle _ repo txn) as [t0|e] eqn:Ht0; [|done].
      simpl in Ht. injection Ht as <-.
      apply Handler_handle_Ok in Ht0 as (acct & _ & ->).
      cbn [postings]. rewrite !currency_sum_app.
      rewrite currency_sum_pair by exact Hfits.
      cbn [currency_sum units number amount_currency].
      rewrite Decimal_neg_POS_1. unfold POS_1.
      case_bool_decide; lia.
Qed.

(** What [Membership.handle] returns on an exact-fee record. *)
Lemma Membership_handle_fee r member monthly_cost repo txn t :
  amount txn = monthly_cost →
  handle (Membership r member monthly_cost) repo txn = Ok t →
  let self := Membership r member monthly_cost in
  let txn' := dataclasses_replace txn r in
  ∃ acct,
    config_accounts repo !! account txn' = Some acct
    ∧ t = {| txn_date := booking_date txn';
             meta := {[ "reference" := reference txn ]};
             flag := "!";
             payee := counterparty_name txn';
             narration := message txn';
             tags := {[ "membership" ]};
             links := ∅;
             postings :=
               [ mkPosting acct (mkAmount (amount txn') (currency txn'))
                           None None ∅ None;
                 mkPosting (source_type self txn' ++ ":Membership")%string
                           (mkAmount (Decimal_neg (amount txn')) (currency txn'))
                           None None ∅ None;
                 mkPosting "Assets:Membership"
                           (mkAmount 100 "MEMBERSHIP_MONTH")
                           None None ∅ None;
                 mkPosting ("Liabilities:Members:" ++ member)%string
                           (mkAmount (-100) "MEMBERSHIP_MONTH")
                           None None ∅ None ] |}.
Proof.
  intros Hfee. simpl. unfold Membership_handle.
  rewrite bool_decide_eq_false_2 by (intros Hne; by apply Hne).
  destruct (Handler_handle _ repo txn) as [t0|e] eqn:Ht0; [|done].
  simpl. intros [= <-].
  apply Handler_handle_Ok in Ht0 as (acct & Hacct & ->).
  exists acct. split; [done|]. cbn -[union].
  by rewrite (left_id_L (∅ : gset string) (∪)).
Qed.

Lemma Membership_handle_other r member monthly_cost repo txn :
  amount txn ≠ monthly_cost →
  handle (Membership r member monthly_cost) repo txn
  = handle DEFAULT_HANDLER repo txn.
Proof.
  intros Hne. simpl. unfold Membership_handle.
  by rewrite bool_decide_eq_true_2 by (intros Heq; by apply Hne).
Qed.

(** C3: a Membership handler facing a record whose amount equals the
    monthly fee builds a transaction of four postings (the two money
    postings, +1 MEMBERSHIP_MONTH on the asset-side membership account and -1
    on the liability account of the configured member) tagged
    ["membership"]; on any other amount it is the default handler that
    answers, with two postings and no tag.  In both cases a transaction is
    built as soon as the account registry resolves the record's account. *)
Theorem C3_membership_exact_fee r member monthly_cost repo txn :
  let self := Membership r member monthly_cost in
  let txn' := dataclasses_replace txn r in
  (amount txn = monthly_cost →
     (∀ t, handle self repo txn = Ok t →
        length (postings t) = 4%nat
        ∧ tags t = {[ "membership" ]}
        ∧ ∃ acct,
            config_accounts repo !! account txn' = Some acct
            ∧ postings t =
              [ mkPosting acct (mkAmount (amount txn') (currency txn'))
                          None None ∅ None;
                mkPosting (source_type self txn' ++ ":Membership")%string
                          (mkAmount (Decimal_neg (amount txn')) (currency txn'))
                          None None ∅ None;
                mkPosting "Assets:Membership"
                          (mkAmount 100 "MEMBERSHIP_MONTH")
                          None None ∅ None;
                mkPosting ("Liabilities:Members:" ++ member)%string
                          (mkAmount (-100) "MEMBERSHIP_MONTH")
                          None None ∅ None ])
     ∧ (is_Some (config_accounts repo !! account txn') →
        ∃ t, handle self repo txn = Ok t))
  ∧ (amount txn ≠ monthly_cost →
     handle self repo txn = handle DEFAULT_HANDLER repo txn
     ∧ (∀ t, handle self repo txn = Ok t →
          length (postings t) = 2%nat ∧ tags t = ∅)
     ∧ (is_Some (config_accounts repo !! account txn) →
        ∃ t, handle self repo txn = Ok t)).
Proof.
  intros self txn'. split.
  - intros Hfee. split.
    + intros t Ht.
      apply Membership_handle_fee in Ht as (acct & Hacct & ->); [|done].
      repeat split. by exists acct.
    + intros [acct Hacct]. subst self. simpl. unfold Membership_handle.
      rewrite bool_decide_eq_false_2 by (intros Hne; by apply Hne).
      destruct (Handler_handle_registered (Membership r member monthly_cost)
                  repo txn acct Hacct) as [t0 ->].
      simpl. eauto.
  - intros Hne. subst self. rewrite Membership_handle_other by done.
    split; [done|]. split.
    + intros t Ht. by apply handle_default_Ok in Ht as (acct & _ & ->).
    + apply handle_default_registered.
Qed.

(** C7, amended: a handler that builds the transaction itself (every handler
    but a Membership handler declining an amount that is not its fee) applies
    its replacement map first: date, payee, narration and the two money
    postings come from the replaced record.  The metadata entry is the
    reference of the record as received, before replacement. *)
Theorem C7_replaced_except_reference self repo txn t :
  (∀ r member monthly_cost,
      self = Membership r member monthly_cost → amount txn = monthly_cost) →
  handle self repo txn = Ok t →
  let txn' := dataclasses_replace txn (replacements self) in
  txn_date t = booking_date txn'
  ∧ payee t = counterparty_name txn'
  ∧ narration t = message txn'
  ∧ (∃ acct,
        config_accounts repo !! account txn' = Some acct
        ∧ take 2 (postings t) =
          [ mkPosting acct (mkAmount (amount txn') (currency txn'))
                      None None ∅ None;
            mkPosting (source_type self txn' ++ ":"
                       ++ default_source self txn')%string
                      (mkAmount (Decimal_neg (amount txn')) (currency txn'))
                      None None ∅ None ])
  ∧ meta t = {[ "reference" := reference txn ]}.
Proof.
  intros Hfee Ht txn'.
  destruct self as [r | r category | r member monthly_cost].
  - apply Handler_handle_Ok in Ht as (acct & Hacct & ->).
    repeat split. by exists acct.
  - apply Handler_handle_Ok in Ht as (acct & Hacct & ->).
    repeat split. by exists acct.
  - apply Membership_handle_fee in Ht as (acct & Hacct & ->); [|by eapply Hfee].
    repeat split. by exists acct.
Qed.

(** ** Loading the extracts *)

Lemma index_txns_snoc txns txn (m : gmap string XlTransaction) :
  index_txns (txns ++ [txn]) m
  = if bool_decide (reference txn = "") then index_txns txns m
    else <[reference txn := txn]> (index_txns txns m).
Proof. unfold index_txns. by rewrite foldl_app. Qed.

Lemma index_txns_app txns1 txns2 (m : gmap string XlTransaction) :
  index_txns (txns1 ++ txns2) m = index_txns txns2 (index_txns txns1 m).
Proof. unfold index_txns. by rewrite foldl_app. Qed.

(** An entry of the index is either an older entry or a record just read,
    filed under its own, non-empty reference. *)
Lemma index_txns_lookup txns (m : gmap string XlTransaction) k txn :
  index_txns txns m !! k = Some txn →
  m !! k = Some txn ∨ (reference txn = k ∧ k ≠ "" ∧ txn ∈ txns).
Proof.
  induction txns as [|x txns IH] using rev_ind; [by left|].
  rewrite index_txns_snoc. case_bool_decide as Hx.
  - intros [? | (? & ? & ?)]%IH; [by left | right].
    repeat split; try done. apply elem_of_app. by left.
  - destruct (decide (reference x = k)) as [<- | Hk].
    + rewrite lookup_insert_eq. intros [= <-]. right.
      repeat split; try done. apply elem_of_app. right. by left.
    + rewrite lookup_insert_ne by done.
      intros [? | (? & ? & ?)]%IH; [by left | right].
      repeat split; try done. apply elem_of_app. by left.
Qed.

(** Records with other references leave an entry alone. *)
Lemma index_txns_others txns (m : gmap string XlTransaction) k :
  Forall (λ x, reference x ≠ k) txns →
  index_txns txns m !! k = m !! k.
Proof.
  induction txns as [|x txns IH] using rev_ind; [done|].
  intros [Htxns Hx]%Forall_app. rewrite Forall_singleton in Hx.
  rewrite index_txns_snoc. case_bool_decide; [by apply IH|].
  rewrite lookup_insert_ne by exact Hx. by apply IH.
Qed.

(** The last record read with a reference is the one indexed under it. *)
Lemma index_txns_last before txn after (m : gmap string XlTransaction) :
  reference txn ≠ "" →
  Forall (λ x, reference x ≠ reference txn) after →
  index_txns (before ++ txn :: after) m !! reference txn = Some txn.
Proof.
  intros Hne Hafter.
  rewrite (index_txns_app before (txn :: after)).
  change (txn :: after) with ([txn] ++ after)%list.
  rewrite (index_txns_app [txn] after), index_txns_others by done.
  unfold index_txns at 1. simpl.
  rewrite bool_decide_eq_false_2 by done. apply lookup_insert_eq.
Qed.

Lemma load_files_Ok files xs (m : gmap string XlTransaction) xs' m' :
  load_files files xs m = Ok (xs', m') →
  ∃ txns, xs' = (xs ++ txns)%list ∧ m' = index_txns txns m.
Proof.
  revert xs m. induction files as [|[txns|] files IH]; intros xs m; simpl.
  - intros [= <- <-]. exists []. by rewrite app_nil_r.
  - intros (rest & -> & ->)%IH. exists (txns ++ rest)%list.
    by rewrite app_assoc, index_txns_app.
  - done.
Qed.

(** What [load_extracts] leaves in the repository: the configuration and
    the ledger index untouched, and the extract index built from the
    sequence of all records. *)
Lemma load_extracts_Ok repo files repo' :
  load_extracts repo files = Ok repo' →
  config_filters repo' = config_filters repo
  ∧ config_accounts repo' = config_accounts repo
  ∧ bc_txn_map repo' = bc_txn_map repo
  ∧ xl_txn_map repo' = index_txns (xl_txns repo') ∅.
Proof.
  unfold load_extracts.
  destruct (load_files files [] ∅) as [[xs m]|e] eqn:Hload; [|done].
  simpl. intros [= <-]. simpl.
  by apply load_files_Ok in Hload as (txns & -> & ->).
Qed.

Lemma load_extracts_well_indexed repo files repo' :
  load_extracts repo files = Ok repo' → well_indexed repo'.
Proof.
  intros (_ & _ & _ & Hm)%load_extracts_Ok k txn. rewrite Hm.
  intros [Hk | (? & ? & _)]%index_txns_lookup; [|done].
  by rewrite lookup_empty in Hk.
Qed.

(** ** The classification loop *)

(** Every handler writes the reference of the record it received into the
    metadata. *)
Lemma handle_meta self repo txn t :
  handle self repo txn = Ok t →
  meta t !! "reference" = Some (reference txn).
Proof.
  intros Ht.
  assert (meta t = {[ "reference" := reference txn ]}) as ->;
    [|apply lookup_singleton_eq].
  destruct self as [r | r category | r member monthly_cost]; simpl in Ht.
  - by apply Handler_handle_Ok in Ht as (acct & _ & ->).
  - by apply Handler_handle_Ok in Ht as (acct & _ & ->).
  - unfold Membership_handle in Ht. case_bool_decide.
    + by apply Handler_handle_Ok in Ht as (acct & _ & ->).
    + destruct (Handler_handle _ repo txn) as [t0|e] eqn:Ht0; [|done].
      simpl in Ht. injection Ht as <-.
      by apply Handler_handle_Ok in Ht0 as (acct & _ & ->).
Qed.

(** The loop appends, in order, one transaction per classified record. *)
Lemma classify_loop_Ok repo ids processed new_txns ts :
  classify_loop re_match repo ids processed new_txns = Ok ts →
  ∃ ts', ts = (new_txns ++ ts')%list
         ∧ Forall2 (handled_as re_match repo) (classified repo ids processed) ts'.
Proof.
  revert processed new_txns.
  induction ids as [|id ids IH]; intros processed new_txns; simpl.
  - intros [= <-]. exists []. by rewrite app_nil_r.
  - unfold getitem. destruct (xl_txn_map repo !! id) as [txn|]; [|done].
    simpl. case_bool_decide; [apply IH|].
    destruct (handle _ repo txn) as [t|e] eqn:Ht; [|done]. simpl.
    intros (ts' & -> & Hts')%IH. exists (t :: ts').
    split; [by rewrite <- app_assoc | by constructor].
Qed.

(** The loop returns as soon as every identifier is indexed and every
    classified record is handled without an exception. *)
Lemma classify_loop_returns repo ids processed new_txns :
  Forall (λ id, is_Some (xl_txn_map repo !! id)) ids →
  Forall (λ txn, ∃ t, handled_as re_match repo txn t) (classified repo ids processed) →
  ∃ ts, classify_loop re_match repo ids processed new_txns = Ok ts.
Proof.
  revert processed new_txns.
  induction ids as [|id ids IH]; intros processed new_txns; simpl; [eauto|].
  intros [[txn Hid] Hids]%Forall_cons. unfold getitem. rewrite Hid. simpl.
  case_bool_decide; [by apply IH|].
  intros [[t Ht] Hrest]%Forall_cons. unfold handled_as in Ht.
  rewrite Ht. simpl. by apply IH.
Qed.

(** On a well-indexed repository the loop skips nothing: visiting distinct
    indexed identifiers, it classifies the record of each. *)
Lemma classified_well_indexed repo ids processed :
  well_indexed repo →
  NoDup ids →
  Forall (λ id, is_Some (xl_txn_map repo !! id) ∧ id ∉ processed) ids →
  Forall2 (λ id txn, xl_txn_map repo !! id = Some txn)
          ids (classified repo ids processed).
Proof.
  intros Hwf. revert processed.
  induction ids as [|id ids IH]; intros processed; simpl; [constructor|].
  intros [Hid Hnodup]%NoDup_cons [[[txn Htxn] Hfresh] Hids]%Forall_cons.
  rewrite Htxn. destruct (Hwf _ _ Htxn) as [Href _].
  rewrite bool_decide_eq_false_2 by (by rewrite Href).
  constructor; [done|]. apply IH; [done|].
  rewrite Forall_forall in Hids. apply Forall_forall. intros id' Hid'.
  destruct (Hids id' Hid') as [? ?]. split; [done|].
  rewrite Href. intros [? | ->%elem_of_singleton]%elem_of_union; done.
Qed.

(** Only indexed records are classified. *)
Lemma classified_indexed repo ids processed txn :
  txn ∈ classified repo ids processed →
  ∃ id, id ∈ ids ∧ xl_txn_map repo !! id = Some txn.
Proof.
  revert processed. induction ids as [|id ids IH]; intros processed; simpl.
  - by intros ?%elem_of_nil.
  - destruct (xl_txn_map repo !! id) as [txn'|] eqn:Hid;
      [|by intros ?%elem_of_nil].
    case_bool_decide.
    + intros (id' & ? & ?)%IH. exists id'. split; [by right | done].
    + intros [-> | (id' & ? & ?)%IH]%elem_of_cons.
      * exists id. split; [left | done].
      * exists id'. split; [by right | done].
Qed.

(** ** Sorting *)

Lemma insert_by_date_perm t l : insert_by_date t l ≡ₚ t :: l.
Proof.
  induction l as [|u l IH]; simpl; [done|].
  destruct (date_ltb _ _); [|done]. rewrite IH. apply Permutation_swap.
Qed.

Lemma sort_by_date_perm l : sort_by_date l ≡ₚ l.
Proof.
  induction l as [|t l IH]; simpl; [done|].
  by rewrite insert_by_date_perm, IH.
Qed.

(** The result is ordered by date. *)
Lemma date_ltb_asym a b : date_ltb a b = true → date_ltb b a = false.
Proof.
  unfold date_ltb. destruct a as [ya ma da], b as [yb mb db]. simpl.
  rewrite !orb_true_iff, !andb_true_iff, !orb_true_iff, !andb_true_iff.
  rewrite !Z.ltb_lt, !Z.eqb_eq. intros Hlt.
  apply not_true_is_false.
  rewrite !orb_true_iff, !andb_true_iff, !orb_true_iff, !andb_true_iff.
  rewrite !Z.ltb_lt, !Z.eqb_eq. lia.
Qed.

Lemma insert_by_date_sorted t l :
  Sorted (λ a b, date_ltb (txn_date b) (txn_date a) = false) l →
  Sorted (λ a b, date_ltb (txn_date b) (txn_date a) = false)
         (insert_by_date t l).
Proof.
  induction 1 as [|u l Hl IH Hhd]; simpl; [by repeat constructor|].
  destruct (date_ltb (txn_date u) (txn_date t)) eqn:Hlt.
  - constructor; [done|]. destruct Hhd as [|v l Hv]; simpl.
    + constructor. by apply date_ltb_asym.
    + destruct (date_ltb (txn_date v) (txn_date t));
        constructor; [done | by apply date_ltb_asym].
  - constructor; [by constructor | by constructor].
Qed.

Lemma sort_by_date_sorted l :
  Sorted (λ a b, date_ltb (txn_date b) (txn_date a) = false) (sort_by_date l).
Proof.
  induction l as [|t l IH]; simpl; [constructor|].
  by apply insert_by_date_sorted.
Qed.

(** ** The run *)

Lemma set_iter_elem (s : gset string) id : id ∈ set_iter s ↔ id ∈ s.
Proof. by rewrite set_iter_perm, elem_of_elements. Qed.

Lemma set_iter_NoDup (s : gset string) : NoDup (set_iter s).
Proof. rewrite set_iter_perm. apply NoDup_elements. Qed.

Lemma set_iter_length (s : gset string) : length (set_iter s) = size s.
Proof. by rewrite set_iter_perm. Qed.

Lemma mapM_result_Ok {A B} (f : A → result B) (P : B → Prop) l :
  Forall (λ x, ∃ y, f x = Ok y ∧ P y) l →
  ∃ ys, mapM f l = Ok ys ∧ Forall P ys.
Proof.
  induction 1 as [|x l (y & Hy & HP) _ (ys & Hys & HPs)]; simpl.
  - exists []. by split.
  - exists (y :: ys). rewrite Hy. simpl. rewrite Hys. simpl.
    split; [done | by constructor].
Qed.

(** The report on orphans never raises and only prints. *)
Lemma orphan_report_Ok repo verbose (xl_ids : gset string) :
  ∃ warned,
    orphan_report set_iter repo verbose (dom (bc_txn_map repo)) xl_ids
    = Ok warned
    ∧ Forall is_echo warned.
Proof.
  unfold orphan_report. case_bool_decide; [|by exists []].
  destruct verbose; simpl.
  - edestruct (mapM_result_Ok
      (λ txnid, txn ← getitem (bc_txn_map repo) txnid;
                mret (Echo (MsgOrphan (txn_date txn) txnid (narration txn))
                           false))
      is_echo (set_iter (dom (bc_txn_map repo) ∖ xl_ids)))
      as (lines & Hlines & Hecho).
    + apply Forall_forall. intros id [Hid _]%set_iter_elem%elem_of_difference.
      apply elem_of_dom in Hid as [txn Htxn]. unfold getitem. rewrite Htxn.
      simpl. eexists. by split.
    + rewrite Hlines. simpl. eexists. split; [done|]. by constructor.
  - eexists. split; [done|]. by repeat constructor.
Qed.

(** The references of the transactions the loop appends are the new
    identifiers, in the order the loop visited them. *)
Lemma classify_loop_references repo ts :
  well_indexed repo →
  let new_txn_ids := dom (xl_txn_map repo) ∖ dom (bc_txn_map repo) in
  classify_loop re_match repo (set_iter new_txn_ids) ∅ [] = Ok ts →
  references ts = Some <$> set_iter new_txn_ids.
Proof.
  intros Hwf new_txn_ids (ts' & -> & Hts')%classify_loop_Ok. simpl.
  assert (Forall2 (λ id txn, reference txn = id)
            (set_iter new_txn_ids)
            (classified repo (set_iter new_txn_ids) ∅)) as Hids.
  { eapply Forall2_impl.
    - apply classified_well_indexed; [done | apply set_iter_NoDup |].
      apply Forall_forall.
      intros id [Hid _]%set_iter_elem%elem_of_difference.
      split; [by apply elem_of_dom | apply not_elem_of_empty].
    - intros id txn Hid. by apply Hwf. }
  revert Hids Hts'. generalize (classified repo (set_iter new_txn_ids) ∅).
  generalize (set_iter new_txn_ids). intros ids txns Hids. revert ts'.
  induction Hids as [|id txn ids txns Hid _ IH]; intros ts' Hts'.
  - by apply Forall2_nil_inv_l in Hts' as ->.
  - apply Forall2_cons_inv_l in Hts' as (t & ts & Ht & Hts & ->).
    unfold references in *. simpl. f_equal; [|by apply IH].
    apply handle_meta in Ht. by rewrite Ht, Hid.
Qed.

(** A run with nothing new prints its report and the message, and returns. *)
Lemma cmd_import_nothing repo files verbose dry_run taken repo' :
  load_extracts repo files = Ok repo' →
  dom (xl_txn_map repo') ∖ dom (bc_txn_map repo') = ∅ →
  ∃ warned,
    Forall is_echo warned
    ∧ cmd_import re_match set_iter repo files verbose dry_run taken
      = ((warned ++ [ Echo MsgNoNew true ])%list, Ok ()).
Proof.
  intros Hload Hnew. unfold cmd_import. rewrite Hload.
  destruct (orphan_report_Ok repo' verbose (dom (xl_txn_map repo')))
    as (warned & -> & Hecho).
  exists warned. split; [done|]. by rewrite bool_decide_eq_true_2.
Qed.

(** A run with new identifiers whose loop returns hands the sorted
    transactions to the output step. *)
Lemma cmd_import_classified repo files verbose dry_run taken repo' ts :
  load_extracts repo files = Ok repo' →
  let new_txn_ids := dom (xl_txn_map repo') ∖ dom (bc_txn_map repo') in
  new_txn_ids ≠ ∅ →
  classify_loop re_match repo' (set_iter new_txn_ids) ∅ [] = Ok ts →
  ∃ warned,
    Forall is_echo warned
    ∧ cmd_import re_match set_iter repo files verbose dry_run taken
      = ((warned ++ emit dry_run taken (sort_by_date ts))%list, Ok ()).
Proof.
  intros Hload new_txn_ids Hnew Hts. unfold cmd_import. rewrite Hload.
  destruct (orphan_report_Ok repo' verbose (dom (xl_txn_map repo')))
    as (warned & -> & Hecho).
  exists warned. split; [done|]. rewrite bool_decide_eq_false_2 by done.
  fold new_txn_ids. by rewrite Hts.
Qed.

(** The references of the transactions handed to the output step are the
    new identifiers, each once. *)
Lemma output_references repo ts :
  well_indexed repo →
  let new_txn_ids := dom (xl_txn_map repo) ∖ dom (bc_txn_map repo) in
  classify_loop re_match repo (set_iter new_txn_ids) ∅ [] = Ok ts →
  references (sort_by_date ts) ≡ₚ Some <$> elements new_txn_ids.
Proof.
  intros Hwf new_txn_ids Hts. unfold references.
  rewrite sort_by_date_perm. fold (references ts).
  rewrite (classify_loop_references repo ts Hwf Hts).
  by rewrite set_iter_perm.
Qed.

Lemma output_references_NoDup repo ts :
  well_indexed repo →
  classify_loop re_match repo
    (set_iter (dom (xl_txn_map repo) ∖ dom (bc_txn_map repo))) ∅ [] = Ok ts →
  NoDup (references (sort_by_date ts)).
Proof.
  intros Hwf Hts. rewrite (output_references repo ts Hwf Hts).
  apply (NoDup_fmap_2 _), NoDup_elements.
Qed.

(** Each transaction the loop appends answers a classified record. *)
Lemma classify_loop_elem_of repo ids ts t :
  classify_loop re_match repo ids ∅ [] = Ok ts →
  t ∈ ts →
  ∃ txn, txn ∈ classified repo ids ∅ ∧ handled_as re_match repo txn t.
Proof.
  intros (ts' & -> & Hts')%classify_loop_Ok. simpl.
  intros (i & Hi)%list_elem_of_lookup.
  destruct (Forall2_lookup_r _ _ _ _ _ Hts' Hi) as (txn & Htxn & Ht).
  exists txn. split; [|done]. apply list_elem_of_lookup. eauto.
Qed.

(** ** The claims about the run *)

(** C1, amended: the output step writes to the automatic file the
    transactions flagged ["!"], the flag a named handler gives the
    transactions it builds, and to the manual-review file those flagged
    ["?"], the flag of the default handler. *)
Theorem C1_confirmed_auto_provisional_manual new_txns taken base t :
  find_base taken = Some base →
  t ∈ new_txns →
  WriteEntries (base, "_auto.beancount") (auto_entries new_txns)
    ∈ emit false taken new_txns
  ∧ WriteEntries (base, "_manual.beancount") (manual_entries new_txns)
    ∈ emit false taken new_txns
  ∧ (flag t = "!" → t ∈ auto_entries new_txns ∧ t ∉ manual_entries new_txns)
  ∧ (flag t = "?" → t ∈ manual_entries new_txns ∧ t ∉ auto_entries new_txns)
  ∧ (∀ repo txn, handle DEFAULT_HANDLER repo txn = Ok t → flag t = "?")
  ∧ (∀ self repo txn,
        is_Handler self = false → Handler_handle self repo txn = Ok t →
        flag t = "!").
Proof.
  intros Hbase Ht. unfold emit, auto_entries, manual_entries. rewrite Hbase.
  split; [left|]. split; [right; left|]. split; [|split; [|split]].
  - intros Hflag.
    split; [by apply list_elem_of_filter|]. by intros [? _]%list_elem_of_filter.
  - intros Hflag. split.
    + apply list_elem_of_filter. split; [by rewrite Hflag | done].
    + rewrite list_elem_of_filter, Hflag. by intros [? _].
  - intros repo txn Hh. by apply handle_default_Ok in Hh as (acct & _ & ->).
  - intros self repo txn Hself Hh.
    apply Handler_handle_Ok in Hh as (acct & _ & ->). simpl. by rewrite Hself.
Qed.

(** C2, amended: when two records of the extract sequence share a non-empty
    reference, the record indexed under it is the last one read with that
    reference, and it is that record the run classifies: every transaction
    the run outputs for the reference is what the handler selected for the
    last record makes of the last record, one is output when the reference is
    new, and the output holds at most one transaction for the reference. *)
Theorem C2_last_record_classified repo files repo'
    before txn1 between txn2 after :
  load_extracts repo files = Ok repo' →
  xl_txns repo' = (before ++ txn1 :: between ++ txn2 :: after)%list →
  reference txn1 = reference txn2 →
  reference txn2 ≠ "" →
  Forall (λ x, reference x ≠ reference txn2) after →
  let ids := set_iter (dom (xl_txn_map repo') ∖ dom (bc_txn_map repo')) in
  xl_txn_map repo' !! reference txn2 = Some txn2
  ∧ (∀ ts, classify_loop re_match repo' ids ∅ [] = Ok ts →
       (∀ t, t ∈ sort_by_date ts →
             meta t !! "reference" = Some (reference txn2) →
             handled_as re_match repo' txn2 t)
       ∧ (reference txn2 ∉ dom (bc_txn_map repo') →
          ∃ t, t ∈ sort_by_date ts ∧ handled_as re_match repo' txn2 t)
       ∧ (∀ i j t t',
            sort_by_date ts !! i = Some t →
            sort_by_date ts !! j = Some t' →
            meta t !! "reference" = Some (reference txn2) →
            meta t' !! "reference" = Some (reference txn2) →
            i = j)).
Proof.
  intros Hload Hxs Href Hne Hafter ids.
  pose proof (load_extracts_well_indexed _ _ _ Hload) as Hwf.
  assert (xl_txn_map repo' !! reference txn2 = Some txn2) as Hlast.
  { apply load_extracts_Ok in Hload as (_ & _ & _ & ->). rewrite Hxs.
    change (before ++ txn1 :: between ++ txn2 :: after)%list
      with (before ++ (txn1 :: between) ++ txn2 :: after)%list.
    rewrite (app_assoc before (txn1 :: between) (txn2 :: after)).
    by apply index_txns_last. }
  split; [done|]. intros ts Hts. split; [|split].
  - intros t Ht Hmeta. rewrite sort_by_date_perm in Ht.
    destruct (classify_loop_elem_of _ _ _ _ Hts Ht) as (txn & Hin & Hhandled).
    pose proof (handle_meta _ _ _ _ Hhandled) as Hmeta'.
    rewrite Hmeta in Hmeta'. injection Hmeta' as Hsame.
    apply classified_indexed in Hin as (id & _ & Hid).
    destruct (Hwf _ _ Hid) as [<- _]. rewrite <- Hsame, Hlast in Hid.
    by injection Hid as <-.
  - intros Hnew.
    assert (reference txn2 ∈ ids) as (i & Hi)%list_elem_of_lookup.
    { apply set_iter_elem, elem_of_difference.
      split; [by apply elem_of_dom | done]. }
    assert (Forall2 (λ id txn, xl_txn_map repo' !! id = Some txn)
              ids (classified repo' ids ∅)) as Hids.
    { apply classified_well_indexed; [done | apply set_iter_NoDup |].
      apply Forall_forall.
      intros id [Hid _]%set_iter_elem%elem_of_difference.
      split; [by apply elem_of_dom | apply not_elem_of_empty]. }
    destruct (Forall2_lookup_l _ _ _ _ _ Hids Hi) as (txn & Htxn & Hid).
    rewrite Hlast in Hid. injection Hid as <-.
    apply classify_loop_Ok in Hts as (ts' & -> & Hts'). simpl.
    destruct (Forall2_lookup_l _ _ _ _ _ Hts' Htxn) as (t & Ht & Hhandled).
    exists t. split; [|done].
    rewrite sort_by_date_perm. apply list_elem_of_lookup. eauto.
  - intros i j t t' Hi Hj Ht Ht'.
    apply (NoDup_lookup (references (sort_by_date ts)) i j
             (Some (reference txn2))).
    + by apply (output_references_NoDup repo').
    + unfold references. rewrite list_lookup_fmap, Hi. simpl. by rewrite Ht.
    + unfold references. rewrite list_lookup_fmap, Hj. simpl. by rewrite Ht'.
Qed.

(** C8: when no extract identifier is missing from the ledger, the run
    returns normally, its last action is the message that there is nothing
    new, and everything it does is print: no entry is printed or written. *)
Theorem C8_nothing_new repo files verbose dry_run taken repo' :
  load_extracts repo files = Ok repo' →
  dom (xl_txn_map repo') ∖ dom (bc_txn_map repo') = ∅ →
  ∃ effects,
    cmd_import re_match set_iter repo files verbose dry_run taken
    = (effects, Ok ())
    ∧ last effects = Some (Echo MsgNoNew true)
    ∧ Forall is_echo effects.
Proof.
  intros Hload Hnew.
  destruct (cmd_import_nothing repo files verbose dry_run taken repo'
              Hload Hnew) as (warned & Hecho & ->).
  eexists. split; [done|]. split; [apply last_snoc|].
  apply Forall_app. split; [done | by repeat constructor].
Qed.

(** C9: an extract record whose reference is empty is not in the index, is
    not classified whatever identifiers the loop visits, and no output
    transaction carries the empty reference. *)
Theorem C9_empty_reference_skipped repo files repo' txn ids :
  load_extracts repo files = Ok repo' →
  txn ∈ xl_txns repo' →
  reference txn = "" →
  (∀ k, xl_txn_map repo' !! k ≠ Some txn)
  ∧ (txn ∉ classified repo' ids ∅)
  ∧ (∀ ts, classify_loop re_match repo' ids ∅ [] = Ok ts →
       ∀ t, t ∈ sort_by_date ts → meta t !! "reference" ≠ Some "").
Proof.
  intros Hload _ Hempty.
  pose proof (load_extracts_well_indexed _ _ _ Hload) as Hwf.
  assert (∀ k, xl_txn_map repo' !! k ≠ Some txn) as Hout.
  { intros k Hk. destruct (Hwf _ _ Hk) as [<- Hne]. done. }
  split; [done|]. split.
  - intros (id & _ & Hid)%classified_indexed. by eapply Hout.
  - intros ts Hts t Ht. rewrite sort_by_date_perm in Ht.
    destruct (classify_loop_elem_of _ _ _ _ Hts Ht) as (txn' & Hin & Hhandled).
    apply handle_meta in Hhandled. rewrite Hhandled. intros [= Href].
    apply classified_indexed in Hin as (id & _ & Hid).
    destruct (Hwf _ _ Hid) as [<- Hne]. done.
Qed.

(** C10: a run that has new identifiers to classify hands to its output
    step exactly one transaction per new identifier: as many transactions as
    identifiers, their references pairwise distinct and forming exactly the
    set of new identifiers.  The loop does return them whenever no handler
    raises on a new record. *)
Theorem C10_one_transaction_per_new_identifier
    repo files verbose dry_run taken repo' :
  load_extracts repo files = Ok repo' →
  let new_txn_ids := dom (xl_txn_map repo') ∖ dom (bc_txn_map repo') in
  new_txn_ids ≠ ∅ →
  (∀ ts, classify_loop re_match repo' (set_iter new_txn_ids) ∅ [] = Ok ts →
     let out := sort_by_date ts in
     (∃ warned,
         Forall is_echo warned
         ∧ cmd_import re_match set_iter repo files verbose dry_run taken
           = ((warned ++ emit dry_run taken out)%list, Ok ()))
     ∧ length out = size new_txn_ids
     ∧ NoDup (references out)
     ∧ (∀ o, o ∈ references out ↔ ∃ k, o = Some k ∧ k ∈ new_txn_ids))
  ∧ ((∀ k txn, k ∈ new_txn_ids → xl_txn_map repo' !! k = Some txn →
               ∃ t, handled_as re_match repo' txn t) →
     ∃ ts, classify_loop re_match repo' (set_iter new_txn_ids) ∅ [] = Ok ts).
Proof.
  intros Hload new_txn_ids Hnew.
  pose proof (load_extracts_well_indexed _ _ _ Hload) as Hwf. split.
  - intros ts Hts out.
    pose proof (output_references repo' ts Hwf Hts) as Hrefs.
    fold new_txn_ids in Hrefs. fold out in Hrefs.
    split; [by eapply cmd_import_classified|]. split; [|split].
    + apply Permutation_length in Hrefs. unfold references in Hrefs.
      by rewrite !length_fmap in Hrefs.
    + by apply (output_references_NoDup repo').
    + intros o. rewrite Hrefs, list_elem_of_fmap.
      split; intros (k & -> & Hk); exists k; (split; [done|]);
        by apply elem_of_elements.
  - intros Hhandled. apply classify_loop_returns.
    + apply Forall_forall.
      intros id [Hid _]%set_iter_elem%elem_of_difference.
      by apply elem_of_dom.
    + apply Forall_forall. intros txn (id & Hid%set_iter_elem & Htxn)%classified_indexed.
      by eapply Hhandled.
Qed.

End properties.

(** * Further properties of the handlers, the loading and the run *)

Section more_properties.

Context {Regexp : Type} (re_match : Regexp → string → bool).
Context (set_iter : gset string → list string).
Hypothesis set_iter_perm : ∀ s, set_iter s ≡ₚ elements s.

Implicit Types (self : Handler) (txn : XlTransaction) (t : Transaction).
Implicit Types (repo : Repository (Regexp:=Regexp)).
Implicit Types (filter : Filter (Regexp:=Regexp)).

(** ** Handlers *)

(** The transaction a handler returns, in terms of the booked record. *)
Lemma handle_booked self repo txn :
  handle self repo txn
  = acct ← get_account repo (account (booked_record self txn));
    mret {| txn_date := booking_date (booked_record self txn);
            meta := {[ "reference" := reference txn ]};
            flag := if declines self txn || is_Handler self
                    then "?" else "!";
            payee := counterparty_name (booked_record self txn);
            narration := message (booked_record self txn);
            tags := match self with
                    | Membership _ _ _ =>
                        if declines self txn then ∅ else {[ "membership" ]}
                    | _ => ∅
                    end;
            links := ∅;
            postings :=
              ([ mkPosting acct
                   (mkAmount (amount (booked_record self txn))
                             (currency (booked_record self txn)))
                   None None ∅ None;
                 mkPosting
                   (source_type self (booked_record self txn)
                    ++ ":" ++ booked_label self txn)%string
                   (mkAmount (Decimal_neg (amount (booked_record self txn)))
                             (currency (booked_record self txn)))
                   None None ∅ None ]
               ++ match self with
                  | Membership _ member _ =>
                      if declines self txn then []
                      else [ mkPosting "Assets:Membership"
                               (mkAmount 100 "MEMBERSHIP_MONTH")
                               None None ∅ None;
                             mkPosting ("Liabilities:Members:" ++ member)%string
                               (mkAmount (-100) "MEMBERSHIP_MONTH")
                               None None ∅ None ]
                  | _ => []
                  end)%list |}.
Proof.
  destruct self as [r | r category | r member monthly_cost];
    unfold booked_record, booked_label; simpl; try reflexivity.
  unfold Membership_handle. case_bool_decide as Hfee; simpl.
  - unfold Handler_handle. simpl. by rewrite dataclasses_replace_nothing.
  - unfold Handler_handle. rewrite !get_account_lookup.
    destruct (config_accounts repo !! _); simpl; [|done].
    by rewrite (left_id_L (∅ : gset string) (∪)).
Qed.

(** X1: a handler returns a transaction only when the configuration has an
    accounts mapping and that mapping holds the account of the record the
    handler books (the record as received when a Membership handler declines
    it, the record after replacement otherwise); the first posting is on the
    account found there.  No transaction is built for an account the
    configuration does not register. *)
Theorem handle_returns_only_for_registered_account self repo txn t :
  handle self repo txn = Ok t →
  ∃ accounts acct,
    config_accounts repo = Some accounts
    ∧ accounts !! account (booked_record self txn) = Some acct
    ∧ posting_account <$> postings t !! 0%nat = Some acct.
Proof.
  rewrite handle_booked. unfold get_account, getitem.
  destruct (config_accounts repo) as [accounts|]; simpl; [|done].
  destruct (accounts !! _) as [acct|] eqn:Hacct; simpl; [|done].
  intros [= <-]. by exists accounts, acct.
Qed.

(** X2: a Categorize handler answers like a handler of the base class with
    the same replacement map, up to the flag and the label of the
    counter-account: same failure, and on success the same date, metadata,
    payee, narration, tags, first posting and amounts. *)
Theorem categorize_changes_flag_and_label_only r category repo txn :
  match handle (Handler_base r) repo txn,
        handle (Categorize r category) repo txn with
  | Ok t0, Ok t =>
      txn_date t = txn_date t0 ∧ meta t = meta t0 ∧ payee t = payee t0
      ∧ narration t = narration t0 ∧ tags t = tags t0 ∧ links t = links t0
      ∧ flag t0 = "?" ∧ flag t = "!"
      ∧ postings t !! 0%nat = postings t0 !! 0%nat
      ∧ units <$> postings t = units <$> postings t0
      ∧ ∃ side,
          posting_account <$> postings t0 !! 1%nat
          = Some (side ++ ":UnaccountedFunds")%string
          ∧ posting_account <$> postings t !! 1%nat
            = Some (side ++ ":" ++ category)%string
  | Raise e0, Raise e => e = e0
  | _, _ => False
  end.
Proof.
  rewrite !handle_booked, !get_account_lookup. unfold booked_record. simpl.
  destruct (config_accounts repo !! _) as [acct|]; simpl; [|done].
  repeat split. by eexists.
Qed.

(** X3: every transaction a handler returns has no link, a flag that is
    ["?"] or ["!"], the reference as its only metadata, postings without
    cost, price, metadata or flag, and either no tag and two postings or the
    tag ["membership"], four postings and the flag ["!"]. *)
Theorem handled_transaction_shape self repo txn t :
  handle self repo txn = Ok t →
  links t = ∅
  ∧ (flag t = "?" ∨ flag t = "!")
  ∧ dom (meta t) = {[ "reference" ]}
  ∧ Forall (λ p, cost p = None ∧ price p = None
                 ∧ posting_meta p = ∅ ∧ posting_flag p = None) (postings t)
  ∧ ((tags t = ∅ ∧ length (postings t) = 2%nat)
     ∨ (tags t = {[ "membership" ]} ∧ length (postings t) = 4%nat
        ∧ flag t = "!")).
Proof.
  rewrite handle_booked, get_account_lookup.
  destruct (config_accounts repo !! _) as [acct|]; simpl; [|done].
  intros [= <-]. simpl. split; [done|]. split.
  { destruct (declines self txn || is_Handler self); auto. }
  split; [apply dom_singleton_L|].
  destruct self as [r | r category | r member monthly_cost]; simpl.
  - split; [by repeat constructor | by left].
  - split; [by repeat constructor | by left].
  - destruct (bool_decide (monthly_cost ≠ amount txn)); simpl.
    + split; [by repeat constructor | by left].
    + split; [by repeat constructor | by right].
Qed.

(** X4: the first posting of a returned transaction is the booked amount on
    the registered account; the second is, in the same currency, the negation
    of the booked amount as the decimal context rounds it, which is its exact
    opposite when the amount has at most 28 significant digits, on a
    counter-account under [Income] when the booked amount is positive and
    under [Expenses] when it is zero or negative. *)
Theorem money_postings_and_side self repo txn t :
  handle self repo txn = Ok t →
  let booked := booked_record self txn in
  ∃ p1 p2,
    postings t !! 0%nat = Some p1
    ∧ postings t !! 1%nat = Some p2
    ∧ config_accounts repo !! account booked = Some (posting_account p1)
    ∧ units p1 = mkAmount (amount booked) (currency booked)
    ∧ units p2 = mkAmount (Decimal_neg (amount booked)) (currency booked)
    ∧ (Z.abs (amount booked) < 10 ^ 28 →
       number (units p2) = - amount booked)
    ∧ posting_account p2
      = ((if bool_decide (0 < amount booked) then "Income:" else "Expenses:")
         ++ booked_label self txn)%string.
Proof.
  rewrite handle_booked, get_account_lookup.
  destruct (config_accounts repo !! _) as [acct|] eqn:Hacct; simpl; [|done].
  intros [= <-]. simpl. do 2 eexists.
  split; [done|]. split; [done|]. split; [done|]. split; [done|].
  split; [done|]. split; [apply Decimal_neg_exact|].
  simpl. unfold source_type.
  destruct (Z.ltb_spec 0 (amount (booked_record self txn))).
  - by rewrite bool_decide_eq_true_2.
  - by rewrite bool_decide_eq_false_2 by lia.
Qed.

(** ** Loading *)

Lemma load_files_Raise files xs (m : gmap string XlTransaction) e :
  load_files files xs m = Raise e ↔ None ∈ files ∧ e = TypeError.
Proof.
  revert xs m. induction files as [|[txns|] files IH]; intros xs m; simpl.
  - split; [done | by intros [?%elem_of_nil _]].
  - rewrite IH. split; intros [Hin ->]; (split; [|done]).
    + by right.
    + by apply elem_of_cons in Hin as [? | ?].
  - split; [intros [= <-]; split; [left | done] | by intros [_ ->]].
Qed.

Lemma load_files_concat files xs (m : gmap string XlTransaction) xs' m' :
  load_files files xs m = Ok (xs', m') →
  ∃ lists, files = Some <$> lists
           ∧ xs' = (xs ++ concat lists)%list
           ∧ m' = index_txns (concat lists) m.
Proof.
  revert xs m. induction files as [|[txns|] files IH]; intros xs m; simpl.
  - intros [= <- <-]. exists []. by rewrite app_nil_r.
  - intros (lists & -> & -> & ->)%IH. exists (txns :: lists). simpl.
    by rewrite app_assoc, index_txns_app.
  - done.
Qed.

(** X5: loading the extracts fails exactly when some directory entry was
    skipped by [import_file], with a [TypeError]; otherwise the sequence of
    records is the concatenation of the files in directory order, the index
    is built from that sequence, and configuration and ledger index are
    untouched. *)
Theorem load_extracts_fails_on_skipped_file_only repo files :
  (∀ e, load_extracts repo files = Raise e ↔ None ∈ files ∧ e = TypeError)
  ∧ (∀ repo', load_extracts repo files = Ok repo' →
       ∃ lists,
         files = Some <$> lists
         ∧ xl_txns repo' = concat lists
         ∧ xl_txn_map repo' = index_txns (concat lists) ∅
         ∧ config_filters repo' = config_filters repo
         ∧ config_accounts repo' = config_accounts repo
         ∧ bc_txn_map repo' = bc_txn_map repo).
Proof.
  unfold load_extracts. split.
  - intros e. rewrite <- (load_files_Raise files [] ∅ e).
    destruct (load_files files [] ∅) as [[xs m]|e']; simpl.
    + split; intros H; inversion H.
    + split; intros [= ->]; reflexivity.
  - intros repo'.
    destruct (load_files files [] ∅) as [[xs m]|e'] eqn:Hload; [|done].
    simpl. intros [= <-]. simpl.
    apply load_files_concat in Hload as (lists & -> & -> & ->).
    by exists lists.
Qed.

Lemma index_txns_member txns (m : gmap string XlTransaction) txn :
  txn ∈ txns → reference txn ≠ "" →
  is_Some (index_txns txns m !! reference txn).
Proof.
  intros Hin Hne. induction txns as [|x txns IH] using rev_ind.
  - by apply elem_of_nil in Hin.
  - rewrite index_txns_snoc.
    apply elem_of_app in Hin as [Hin | ->%list_elem_of_singleton].
    + case_bool_decide; [by apply IH|].
      destruct (decide (reference x = reference txn)) as [-> | Hk].
      * rewrite lookup_insert_eq. eauto.
      * rewrite lookup_insert_ne by done. by apply IH.
    + rewrite bool_decide_eq_false_2 by done. rewrite lookup_insert_eq. eauto.
Qed.

(** X6: after loading, the identifiers of the extract index are exactly the
    non-empty references occurring in the sequence of records, and the record
    found under an identifier is a record of the sequence with that
    reference. *)
Theorem extract_index_content repo files repo' :
  load_extracts repo files = Ok repo' →
  (∀ k, k ∈ dom (xl_txn_map repo')
        ↔ k ≠ "" ∧ ∃ txn, txn ∈ xl_txns repo' ∧ reference txn = k)
  ∧ (∀ k txn, xl_txn_map repo' !! k = Some txn →
              txn ∈ xl_txns repo' ∧ reference txn = k).
Proof.
  intros (_ & _ & _ & Hm)%load_extracts_Ok. rewrite Hm.
  assert (∀ k txn, index_txns (xl_txns repo') ∅ !! k = Some txn →
                   txn ∈ xl_txns repo' ∧ reference txn = k ∧ k ≠ "") as Hget.
  { intros k txn [Hk | (? & ? & ?)]%index_txns_lookup; [|done].
    by rewrite lookup_empty in Hk. }
  split.
  - intros k. rewrite elem_of_dom. split.
    + intros [txn Htxn]. destruct (Hget _ _ Htxn) as (? & ? & ?). eauto.
    + intros (Hne & txn & Hin & <-). by apply index_txns_member.
  - intros k txn Htxn. destruct (Hget _ _ Htxn) as (? & ? & ?). done.
Qed.

End more_properties.

Section more_loading.

Context (splitext : string → string * string).
Context (import_xl : string → result (list XlTransaction)).

(** A directory entry is decoded when it is a spreadsheet that
    [import_xl] reads. *)
Lemma import_file_Some fname txns :
  import_file splitext import_xl fname = Ok (Some txns)
  ↔ (splitext fname).2 = ".xlsx" ∧ import_xl fname = Ok txns.
Proof.
  unfold import_file. case_bool_decide as Hext.
  - destruct (import_xl fname) as [txns'|e]; simpl.
    + split; [by intros [= <-] | by intros [_ [= <-]]].
    + split; [done | by intros [_ ?]].
  - split; [done | by intros [? _]].
Qed.

Lemma load_paths_decoded paths lists xs (m : gmap string XlTransaction) :
  Forall2 (λ path txns, import_file splitext import_xl path = Ok (Some txns))
          paths lists →
  load_paths splitext import_xl paths xs m
  = load_files (Some <$> lists) xs m.
Proof.
  intros Hdecoded. revert xs m.
  induction Hdecoded as [|path txns paths lists Hpath _ IH]; intros xs m;
    simpl; [done|].
  rewrite Hpath. simpl. apply IH.
Qed.

(** X7: when every directory entry is a spreadsheet that the decoder reads,
    the records are the concatenation of the decoded files, indexed in that
    order. *)
Theorem load_paths_all_decoded paths lists :
  Forall2 (λ path txns,
             (splitext path).2 = ".xlsx" ∧ import_xl path = Ok txns)
          paths lists →
  load_paths splitext import_xl paths [] ∅
  = Ok (concat lists, index_txns (concat lists) ∅).
Proof.
  intros Hall.
  rewrite (load_paths_decoded paths lists).
  - clear Hall. generalize (∅ : gmap string XlTransaction).
    change (concat lists) with ([] ++ concat lists)%list at 1.
    generalize ([] : list XlTransaction).
    induction lists as [|txns lists IH]; intros xs m; simpl.
    + by rewrite app_nil_r.
    + by rewrite IH, app_assoc, index_txns_app.
  - eapply Forall2_impl; [exact Hall|]. intros path txns Hpath.
    by apply import_file_Some.
Qed.

(** X8: the first directory entry that is not decoded stops the loading,
    whatever follows it: with a [TypeError] when it is not a [.xlsx] file
    (it is skipped, not read), with the decoder's exception when the
    decoder raises. *)
Theorem load_paths_stops_at_first_failure pre path post xs
    (m : gmap string XlTransaction) :
  Forall (λ q, ∃ txns, import_file splitext import_xl q = Ok (Some txns))
         pre →
  ((splitext path).2 ≠ ".xlsx" →
   load_paths splitext import_xl (pre ++ path :: post) xs m = Raise TypeError)
  ∧ (∀ e, (splitext path).2 = ".xlsx" → import_xl path = Raise e →
          load_paths splitext import_xl (pre ++ path :: post) xs m = Raise e).
Proof.
  intros Hpre. revert xs m.
  induction Hpre as [|q pre [txns Hq] _ IH]; intros xs m; simpl.
  - unfold import_file. split.
    + intros Hext. by rewrite bool_decide_eq_false_2.
    + intros e Hext He. rewrite bool_decide_eq_true_2 by done.
      by rewrite He.
  - rewrite Hq. simpl. apply IH.
Qed.

End more_loading.


(** ** The ledger index and the include file *)

Lemma index_directives_snoc ds d (m : gmap string Transaction) :
  index_directives (ds ++ [d]) m
  = match d with
    | DOther => index_directives ds m
    | DTransaction t =>
        match meta t !! "reference" with
        | Some ref => <[ref := t]> (index_directives ds m)
        | None => index_directives ds m
        end
    end.
Proof. unfold index_directives. by rewrite foldl_app. Qed.

Lemma index_directives_app ds1 ds2 (m : gmap string Transaction) :
  index_directives (ds1 ++ ds2) m
  = index_directives ds2 (index_directives ds1 m).
Proof. unfold index_directives. by rewrite foldl_app. Qed.

Lemma index_directives_lookup ds (m : gmap string Transaction) k t :
  index_directives ds m !! k = Some t →
  m !! k = Some t
  ∨ (DTransaction t ∈ ds ∧ meta t !! "reference" = Some k).
Proof.
  induction ds as [|d ds IH] using rev_ind; [by left|].
  rewrite index_directives_snoc.
  assert (index_directives ds m !! k = Some t →
          m !! k = Some t
          ∨ (DTransaction t ∈ (ds ++ [d])%list
             ∧ meta t !! "reference" = Some k))
    as IH'.
  { intros [? | [? ?]]%IH; [by left | right].
    split; [|done]. apply elem_of_app. by left. }
  destruct d as [u|]; [|done].
  destruct (meta u !! "reference") as [ref|] eqn:Href; [|done].
  destruct (decide (ref = k)) as [-> | Hk].
  - rewrite lookup_insert_eq. intros [= <-]. right.
    split; [|done]. apply elem_of_app. right. by left.
  - by rewrite lookup_insert_ne.
Qed.

Lemma index_directives_keeps ds (m : gmap string Transaction) k :
  is_Some (m !! k) → is_Some (index_directives ds m !! k).
Proof.
  intros Hk. induction ds as [|d ds IH] using rev_ind; [done|].
  rewrite index_directives_snoc. destruct d as [u|]; [|done].
  destruct (meta u !! "reference") as [ref|]; [|done].
  destruct (decide (ref = k)) as [-> | Hne].
  - rewrite lookup_insert_eq. eauto.
  - by rewrite lookup_insert_ne.
Qed.

Lemma index_directives_member ds (m : gmap string Transaction) k t :
  DTransaction t ∈ ds → meta t !! "reference" = Some k →
  is_Some (index_directives ds m !! k).
Proof.
  intros (pre & post & ->)%list_elem_of_split Href.
  rewrite index_directives_app.
  change (DTransaction t :: post) with ([DTransaction t] ++ post)%list.
  rewrite index_directives_app. apply index_directives_keeps.
  unfold index_directives at 1. simpl. rewrite Href, lookup_insert_eq. eauto.
Qed.

Lemma index_directives_others ds (m : gmap string Transaction) k :
  Forall (λ d, ∀ u, d = DTransaction u → meta u !! "reference" ≠ Some k) ds →
  index_directives ds m !! k = m !! k.
Proof.
  induction ds as [|d ds IH] using rev_ind; [done|].
  intros [Hds Hd]%Forall_app. rewrite Forall_singleton in Hd.
  rewrite index_directives_snoc. destruct d as [u|]; [|by apply IH].
  destruct (meta u !! "reference") as [ref|] eqn:Href; [|by apply IH].
  rewrite lookup_insert_ne; [by apply IH|].
  intros ->. by apply (Hd u).
Qed.

(** X9: the ledger index holds exactly the references found in the
    metadata of the ledger's transactions, the empty reference included;
    under a reference it holds a transaction of the ledger carrying that
    reference.  Other directives and transactions without reference are
    not indexed. *)
Theorem ledger_index_content (bc_ledger : list Directive) :
  (∀ k, k ∈ dom (index_ledger bc_ledger)
        ↔ ∃ t, DTransaction t ∈ bc_ledger ∧ meta t !! "reference" = Some k)
  ∧ (∀ k t, index_ledger bc_ledger !! k = Some t →
            DTransaction t ∈ bc_ledger ∧ meta t !! "reference" = Some k).
Proof.
  assert (∀ k t, index_ledger bc_ledger !! k = Some t →
            DTransaction t ∈ bc_ledger ∧ meta t !! "reference" = Some k)
    as Hget.
  { intros k t [Hk | ?]%index_directives_lookup; [|done].
    by rewrite lookup_empty in Hk. }
  split; [|done]. intros k. rewrite elem_of_dom. split.
  - intros [t Ht]. exists t. by apply Hget.
  - intros (t & Hin & Href). by eapply index_directives_member.
Qed.

(** X10: when several transactions of the ledger carry one reference, the
    index keeps the last of them. *)
Theorem ledger_index_last_wins (pre post : list Directive) t k :
  meta t !! "reference" = Some k →
  Forall (λ d, ∀ u, d = DTransaction u → meta u !! "reference" ≠ Some k)
         post →
  index_ledger (pre ++ DTransaction t :: post) !! k = Some t.
Proof.
  intros Href Hpost. unfold index_ledger.
  rewrite index_directives_app.
  change (DTransaction t :: post) with ([DTransaction t] ++ post)%list.
  rewrite index_directives_app, index_directives_others by done.
  unfold index_directives at 1. simpl. rewrite Href. apply lookup_insert_eq.
Qed.

Lemma insert_name_perm n l : insert_name n l ≡ₚ n :: l.
Proof.
  induction l as [|m l IH]; simpl; [done|].
  destruct (String.leb n m); [done|]. rewrite IH. apply Permutation_swap.
Qed.

Lemma sorted_perm names : sorted names ≡ₚ names.
Proof.
  induction names as [|n names IH]; simpl; [done|].
  by rewrite insert_name_perm, IH.
Qed.

Lemma insert_name_sorted n l :
  Sorted (λ a b, String.leb a b = true) l →
  Sorted (λ a b, String.leb a b = true) (insert_name n l).
Proof.
  induction 1 as [|m l Hl IH Hhd]; simpl; [by repeat constructor|].
  destruct (String.leb n m) eqn:Hnm.
  - constructor; [by constructor | by constructor].
  - assert (String.leb m n = true) as Hmn.
    { destruct (String.leb_total n m) as [Hle | Hle]; [congruence | done]. }
    constructor; [done|]. destruct Hhd as [|v l Hv]; simpl.
    + by constructor.
    + destruct (String.leb n v); by constructor.
Qed.

Lemma sorted_sorted names :
  Sorted (λ a b, String.leb a b = true) (sorted names).
Proof.
  induction names as [|n names IH]; simpl; [constructor|].
  by apply insert_name_sorted.
Qed.

(** X11: the include file gets one line per entry of the transaction
    directory, no other line, and the lines follow the order of the
    names. *)
Theorem scan_beancount_lists_every_file (listdir : list string) :
  ∃ names,
    names ≡ₚ listdir
    ∧ Sorted (λ a b, String.leb a b = true) names
    ∧ scan_beancount listdir
      = (λ name, "include " ++ dquote ++ "transactions/" ++ name ++ dquote)%string
          <$> names.
Proof.
  exists (sorted listdir).
  split; [apply sorted_perm|]. split; [apply sorted_sorted | done].
Qed.

(** ** The output step *)

Lemma find_seq_first (f : nat → bool) a n :
  match List.find f (seq a n) with
  | Some i => (a ≤ i < a + n)%nat ∧ f i = true
              ∧ ∀ j, (a ≤ j < i)%nat → f j = false
  | None => ∀ j, (a ≤ j < a + n)%nat → f j = false
  end.
Proof.
  revert a. induction n as [|n IH]; intros a; simpl; [lia|].
  destruct (f a) eqn:Ha.
  - split; [lia|]. split; [done | lia].
  - specialize (IH (S a)). destruct (List.find f (seq (S a) n)) as [i|].
    + destruct IH as (Hi & Hfi & Hfirst). split; [lia|]. split; [done|].
      intros j Hj. destruct (decide (j = a)) as [-> | Hne]; [done|].
      apply Hfirst. lia.
    + intros j Hj. destruct (decide (j = a)) as [-> | Hne]; [done|].
      apply IH. lia.
Qed.

(** X12: the sequence number chosen for the output files is the smallest
    number from 1 to 999 for which no file exists yet; none is chosen
    exactly when all 999 numbers are taken. *)
Theorem find_base_smallest_free (taken : nat → bool) :
  match find_base taken with
  | Some base => (1 ≤ base ≤ 999)%nat ∧ taken base = false
                 ∧ ∀ j, (1 ≤ j < base)%nat → taken j = true
  | None => ∀ j, (1 ≤ j ≤ 999)%nat → taken j = true
  end.
Proof.
  unfold find_base.
  pose proof (find_seq_first (λ i, negb (taken i)) 1 999) as H.
  destruct (List.find _ (seq 1 999)) as [base|].
  - destruct H as (Hbase & Hfree & Hfirst). split; [lia|].
    split; [by apply negb_true_iff|].
    intros j Hj. apply negb_false_iff, Hfirst. lia.
  - intros j Hj. apply negb_false_iff, H. lia.
Qed.

(** X13: the two output lists split the transactions: together they are a
    rearrangement of all of them, each keeps the order of the sequence it was
    taken from, and no transaction is in both. *)
Theorem buckets_partition_the_transactions (new_txns : list Transaction) :
  (auto_entries new_txns ++ manual_entries new_txns)%list ≡ₚ new_txns
  ∧ auto_entries new_txns `sublist_of` new_txns
  ∧ manual_entries new_txns `sublist_of` new_txns
  ∧ ∀ t, ¬ (t ∈ auto_entries new_txns ∧ t ∈ manual_entries new_txns).
Proof.
  unfold auto_entries, manual_entries. split; [|split; [|split]].
  - apply filter_app_complement.
  - apply sublist_filter.
  - apply sublist_filter.
  - intros t [[Hauto _]%list_elem_of_filter [Hmanual _]%list_elem_of_filter].
    done.
Qed.

Lemma date_ltb_irrefl a : date_ltb a a = false.
Proof.
  destruct (date_ltb a a) eqn:H; [|done].
  pose proof (date_ltb_asym _ _ H). congruence.
Qed.

Lemma insert_by_date_filter t l d :
  filter (λ u, txn_date u = d) (insert_by_date t l)
  = filter (λ u, txn_date u = d) (t :: l).
Proof.
  induction l as [|u l IH]; simpl; [done|].
  destruct (date_ltb (txn_date u) (txn_date t)) eqn:Hlt; [|done].
  rewrite filter_cons, IH, !filter_cons.
  destruct (decide (txn_date t = d)) as [Ht|Ht];
    destruct (decide (txn_date u = d)) as [Hu|Hu]; try done.
  rewrite Ht, Hu, date_ltb_irrefl in Hlt. done.
Qed.

(** X14: sorting the transactions rearranges them in ascending date order
    and keeps the transactions of one date in the order they had. *)
Theorem sort_by_date_stable_ascending (l : list Transaction) :
  sort_by_date l ≡ₚ l
  ∧ Sorted (λ a b, date_ltb (txn_date b) (txn_date a) = false)
           (sort_by_date l)
  ∧ ∀ d, filter (λ t, txn_date t = d) (sort_by_date l)
         = filter (λ t, txn_date t = d) l.
Proof.
  split; [apply sort_by_date_perm|]. split; [apply sort_by_date_sorted|].
  intros d. induction l as [|t l IH]; simpl; [done|].
  by rewrite insert_by_date_filter, !filter_cons, IH.
Qed.

(** X24: which output file a transaction goes to is decided by who built
    it: the automatic file when a Categorize handler or a Membership handler
    on its exact fee built it, the manual-review file when a handler of the
    base class built it or a Membership handler declined the record. *)
Theorem output_file_by_handler {Regexp : Type}
    (self : Handler) (repo : Repository (Regexp:=Regexp))
    (txn : XlTransaction) (t : Transaction) (new_txns : list Transaction) :
  handle self repo txn = Ok t →
  t ∈ new_txns →
  (t ∈ auto_entries new_txns
   ↔ is_Handler self = false ∧ declines self txn = false)
  ∧ (t ∈ manual_entries new_txns
     ↔ is_Handler self = true ∨ declines self txn = true).
Proof.
  rewrite handle_booked, get_account_lookup.
  destruct (config_accounts repo !! _) as [acct|]; simpl; [|done].
  intros [= <-] Hin. unfold auto_entries, manual_entries.
  rewrite !list_elem_of_filter. simpl.
  destruct (declines self txn), (is_Handler self); simpl; split; split;
    try (intros [? ?]); try (intros [? | ?]); try done; auto.
Qed.

(** ** The rule list *)

Section rule_properties.

Context {Regexp : Type} (re_match : Regexp → string → bool).

Implicit Types (txn : XlTransaction) (filter : Filter (Regexp:=Regexp)).

(** X15: a rule without any matcher accepts every record, and the rules
    listed after a rule that accepts a record play no part for that record:
    replacing them leaves the handler unchanged. *)
Theorem rules_after_a_match_are_dead :
  (∀ h txn, test re_match (mkFilter [] [] [] [] h) txn = true)
  ∧ (∀ pre filter post post' txn,
        test re_match filter txn = true →
        select_handler re_match (pre ++ filter :: post) txn
        = select_handler re_match (pre ++ filter :: post') txn).
Proof.
  split; [done|]. intros pre filter post post' txn Hfilter.
  induction pre as [|g pre IH]; simpl.
  - by rewrite Hfilter.
  - by rewrite IH.
Qed.

(** X16: a matcher list that holds only values that are neither strings nor
    patterns never passes, so the rule that carries it accepts no record. *)
Theorem non_matcher_values_reject (pattern : list (StrFilter (Regexp:=Regexp)))
    (field : string) :
  pattern ≠ [] →
  Forall (λ item, item = FOther) pattern →
  _test1 re_match field pattern = false
  ∧ ∀ filter txn,
      name filter = pattern ∨ kind filter = pattern
      ∨ f_message filter = pattern ∨ f_account filter = pattern →
      test re_match filter txn = false.
Proof.
  intros Hne Hother.
  assert (∀ field, _test1 re_match field pattern = false) as Hfalse.
  { intros fld. unfold _test1.
    rewrite bool_decide_eq_false_2 by (by destruct pattern).
    clear Hne. induction Hother as [|item pattern -> _ IH]; simpl; done. }
  split; [done|]. intros filter txn Hcarries.
  unfold test, all. simpl.
  destruct Hcarries as [-> | [-> | [-> | ->]]]; rewrite Hfalse; simpl;
    by rewrite ?andb_false_r.
Qed.

End rule_properties.

(** ** The run *)

Section run_properties.

Context {Regexp : Type} (re_match : Regexp → string → bool).
Context (set_iter : gset string → list string).
Hypothesis set_iter_perm : ∀ s, set_iter s ≡ₚ elements s.

Implicit Types (self : Handler) (txn : XlTransaction) (t : Transaction).
Implicit Types (repo : Repository (Regexp:=Regexp)).

Lemma mapM_result_Forall2 {A B} (f : A → result B) l :
  Forall (λ x, ∃ y, f x = Ok y) l →
  ∃ ys, mapM f l = Ok ys ∧ Forall2 (λ x y, f x = Ok y) l ys.
Proof.
  induction 1 as [|x l [y Hy] _ (ys & Hys & Hall)]; simpl.
  - exists []. by split.
  - exists (y :: ys). rewrite Hy. simpl. rewrite Hys. simpl.
    split; [done | by constructor].
Qed.

(** X17: the report on orphans is empty when every ledger reference occurs
    in the extracts.  Otherwise it is, without [-v], the warning and the hint,
    both on the error stream, and with [-v] the warning on the standard
    output followed by one line per orphan reference with the date and the
    narration of its ledger transaction. *)
Theorem orphan_report_lists_every_orphan repo verbose (xl_ids : gset string) :
  ∃ lines,
    Forall2 (λ txnid line,
               ∃ t, bc_txn_map repo !! txnid = Some t
                    ∧ line = Echo (MsgOrphan (txn_date t) txnid (narration t))
                                  false)
            (set_iter (dom (bc_txn_map repo) ∖ xl_ids)) lines
    ∧ orphan_report set_iter repo verbose (dom (bc_txn_map repo)) xl_ids
      = Ok (if bool_decide (dom (bc_txn_map repo) ∖ xl_ids = ∅) then []
            else if verbose then Echo MsgOrphans false :: lines
            else [ Echo MsgOrphans true; Echo MsgPassV true ]).
Proof.
  edestruct (mapM_result_Forall2
      (λ txnid, txn ← getitem (bc_txn_map repo) txnid;
                mret (Echo (MsgOrphan (txn_date txn) txnid (narration txn))
                           false))
      (set_iter (dom (bc_txn_map repo) ∖ xl_ids)))
      as (lines & Hlines & Hall).
  { apply Forall_forall.
    intros id [Hid _]%(set_iter_elem set_iter set_iter_perm)%elem_of_difference.
    apply elem_of_dom in Hid as [t Ht]. unfold getitem. rewrite Ht.
    simpl. by eexists. }
  exists lines. split.
  - eapply Forall2_impl; [exact Hall|]. intros id line. simpl.
    unfold getitem. destruct (bc_txn_map repo !! id) as [t|]; simpl; [|done].
    intros [= <-]. by exists t.
  - unfold orphan_report. case_bool_decide as Horphans.
    + rewrite bool_decide_eq_false_2 by done.
      destruct verbose; simpl; [|done]. by rewrite Hlines.
    + rewrite bool_decide_eq_true_2; [done|].
      destruct (decide (dom (bc_txn_map repo) ∖ xl_ids = ∅)); [done|].
      by destruct Horphans.
Qed.

(** On a well-indexed repository, a loop over distinct indexed identifiers
    returns the transaction of each identifier's record, in order. *)
Lemma classify_loop_by_id repo ids ts :
  well_indexed repo →
  NoDup ids →
  Forall (λ id, is_Some (xl_txn_map repo !! id)) ids →
  classify_loop re_match repo ids ∅ [] = Ok ts →
  Forall2 (λ id t, ∃ txn, xl_txn_map repo !! id = Some txn
                          ∧ handled_as re_match repo txn t) ids ts.
Proof.
  intros Hwf Hnodup Hids (ts' & -> & Hts')%classify_loop_Ok. simpl.
  eapply Forall2_trans; [|apply (classified_well_indexed repo ids ∅)|exact Hts'];
    try done.
  - intros id txn t ? ?. by exists txn.
  - eapply Forall_impl; [exact Hids|]. intros id ?. split; [done|].
    apply not_elem_of_empty.
Qed.

(** X21: the order in which the set of new identifiers is visited does not
    change what is produced: if the loop returns for one order it returns
    for any other, with the same transactions up to rearrangement, before
    and after sorting. *)
Theorem iteration_order_only_rearranges repo files repo' ids1 ids2 ts1 :
  load_extracts repo files = Ok repo' →
  ids1 ≡ₚ elements (dom (xl_txn_map repo') ∖ dom (bc_txn_map repo')) →
  ids2 ≡ₚ elements (dom (xl_txn_map repo') ∖ dom (bc_txn_map repo')) →
  classify_loop re_match repo' ids1 ∅ [] = Ok ts1 →
  ∃ ts2,
    classify_loop re_match repo' ids2 ∅ [] = Ok ts2
    ∧ ts1 ≡ₚ ts2
    ∧ sort_by_date ts1 ≡ₚ sort_by_date ts2.
Proof.
  intros Hload Hids1 Hids2 Hts1.
  pose proof (load_extracts_well_indexed _ _ _ Hload) as Hwf.
  assert (∀ ids,
            ids ≡ₚ elements (dom (xl_txn_map repo') ∖ dom (bc_txn_map repo')) →
            NoDup ids ∧ Forall (λ id, is_Some (xl_txn_map repo' !! id)) ids)
    as Hok.
  { intros ids Hids. split; [rewrite Hids; apply NoDup_elements|].
    apply Forall_forall. intros id. rewrite Hids, elem_of_elements.
    intros [Hid _]%elem_of_difference. by apply elem_of_dom. }
  destruct (Hok _ Hids1) as [Hnodup1 Hsome1].
  destruct (Hok _ Hids2) as [Hnodup2 Hsome2].
  pose proof (classify_loop_by_id _ _ _ Hwf Hnodup1 Hsome1 Hts1) as Hby1.
  destruct (classify_loop_returns re_match repo' ids2 ∅ []) as [ts2 Hts2];
    [done| |].
  { apply Forall_forall. intros txn (id & Hid & Htxn)%classified_indexed.
    rewrite Hids2, <- Hids1 in Hid.
    apply list_elem_of_lookup in Hid as [i Hi].
    destruct (Forall2_lookup_l _ _ _ _ _ Hby1 Hi) as (t & _ & txn' & Htxn' & Ht).
    exists t. congruence. }
  pose proof (classify_loop_by_id _ _ _ Hwf Hnodup2 Hsome2 Hts2) as Hby2.
  exists ts2. split; [done|].
  assert (ts1 ≡ₚ ts2) as Hperm; [|split; [done|]; by rewrite !sort_by_date_perm].
  set (g := λ id,
         match xl_txn_map repo' !! id with
         | Some txn =>
             match handle (select_handler re_match (config_filters repo') txn)
                          repo' txn with
             | Ok t => Some t
             | Raise _ => None
             end
         | None => None
         end).
  assert (∀ ids ts,
            Forall2 (λ id t, ∃ txn, xl_txn_map repo' !! id = Some txn
                                    ∧ handled_as re_match repo' txn t) ids ts →
            omap g ids = ts) as Homap.
  { induction 1 as [|id t ids ts (txn & Htxn & Ht) _ IH]; [done|].
    assert (g id = Some t) as Hg.
    { unfold g. unfold handled_as in Ht. by rewrite Htxn, Ht. }
    simpl. rewrite Hg. simpl. f_equal. exact IH. }
  rewrite <- (Homap _ _ Hby1), <- (Homap _ _ Hby2).
  by rewrite Hids1, Hids2.
Qed.


(** X23: a ledger transaction recorded under the empty reference is an
    orphan in every run, since the extract index never holds the empty
    reference: the first thing such a run prints is the warning about
    ledger transactions missing from the extracts. *)
Theorem empty_ledger_reference_always_warns
    repo files repo' verbose dry_run taken :
  load_extracts repo files = Ok repo' →
  "" ∈ dom (bc_txn_map repo) →
  ∃ rest,
    (cmd_import re_match set_iter repo files verbose dry_run taken).1
    = Echo MsgOrphans (negb verbose) :: rest.
Proof.
  intros Hload Hempty.
  pose proof (load_extracts_well_indexed _ _ _ Hload) as Hwf.
  destruct (load_extracts_Ok _ _ _ Hload) as (_ & _ & Hbc & _).
  assert (dom (bc_txn_map repo') ∖ dom (xl_txn_map repo') ≠ ∅) as Horphans.
  { intros Hnone. apply (not_elem_of_empty (C:=gset string) "").
    rewrite <- Hnone. apply elem_of_difference. split; [by rewrite Hbc|].
    intros [txn Htxn]%elem_of_dom. by destruct (Hwf _ _ Htxn). }
  assert (∃ rest,
             orphan_report set_iter repo' verbose (dom (bc_txn_map repo'))
               (dom (xl_txn_map repo'))
             = Ok (Echo MsgOrphans (negb verbose) :: rest)) as [rest Hreport].
  { destruct (orphan_report_Ok set_iter set_iter_perm repo' verbose
                (dom (xl_txn_map repo'))) as (warned & Hwarned & _).
    rewrite Hwarned. unfold orphan_report in Hwarned.
    rewrite bool_decide_eq_true_2 in Hwarned by done.
    destruct verbose; simpl in Hwarned.
    - destruct (mapM _ _) as [lines|]; simpl in Hwarned; [|done].
      injection Hwarned as <-. by eexists.
    - injection Hwarned as <-. by eexists. }
  unfold cmd_import. rewrite Hload, Hreport.
  case_bool_decide; simpl; [by eexists|].
  destruct (classify_loop _ _ _ _ _); simpl; by eexists.
Qed.

End run_properties.

(** ** The whole body of the command *)

Section command_properties.

Context {Regexp : Type} (re_match : Regexp → string → bool).
Context (set_iter : gset string → list string).
Hypothesis set_iter_perm : ∀ s, set_iter s ≡ₚ elements s.
Context (splitext : string → string * string).
Context (import_xl : string → result (list XlTransaction)).

Implicit Types (repo : Repository (Regexp:=Regexp)).

Lemma find_base_None (taken : nat → bool) :
  (∀ j, (1 ≤ j ≤ 999)%nat → taken j = true) → find_base taken = None.
Proof.
  intros Hall. unfold find_base.
  pose proof (find_seq_first (λ i, negb (taken i)) 1 999) as H.
  destruct (List.find _ (seq 1 999)) as [base|]; [|done].
  destruct H as (Hbase & Hfree & _).
  rewrite Hall in Hfree by lia. done.
Qed.

(** What constructing the repository does: nothing when the configuration
    does not load, else the rewriting of the include file, followed by the
    printing of the errors when the ledger does not load. *)
Lemma Repository_init_effects config ledger_data errors :
  let constructed :=
    (Repository_init (Regexp:=Regexp) config ledger_data errors).1 in
  constructed = [] ∨ constructed = [ ScanBeancount ]
  ∨ constructed = [ ScanBeancount; PrintErrors errors ].
Proof.
  unfold Repository_init. destruct config as [config|e]; [|by left].
  case_bool_decide; simpl; auto.
Qed.

(** The run after loading only prints messages when it raises, ... *)
Lemma cmd_import_tail_raises repo verbose dry_run taken e :
  (cmd_import_tail re_match set_iter repo verbose dry_run taken).2 = Raise e →
  Forall is_echo
    (cmd_import_tail re_match set_iter repo verbose dry_run taken).1.
Proof.
  unfold cmd_import_tail.
  destruct (orphan_report_Ok set_iter set_iter_perm repo verbose
              (dom (xl_txn_map repo))) as (warned & -> & Hecho).
  case_bool_decide; [done|].
  by destruct (classify_loop _ _ _ _ _) as [ts|e'].
Qed.

(** ... only prints messages and entries when it is a dry run, ... *)
Lemma cmd_import_tail_dry_run repo verbose taken :
  Forall is_print
    (cmd_import_tail re_match set_iter repo verbose true taken).1.
Proof.
  unfold cmd_import_tail.
  destruct (orphan_report_Ok set_iter set_iter_perm repo verbose
              (dom (xl_txn_map repo))) as (warned & -> & Hecho).
  assert (Forall is_print warned) as Hprint.
  { eapply Forall_impl; [exact Hecho|]. by intros []. }
  case_bool_decide; simpl.
  - apply Forall_app. split; [done|]. by apply Forall_singleton.
  - destruct (classify_loop _ _ _ _ _) as [ts|e]; simpl; [|done].
    apply Forall_app. split; [done|]. by apply Forall_singleton.
Qed.

(** ... and only prints messages and logs the error when no sequence
    number is free. *)
Lemma cmd_import_tail_no_free_number repo verbose (taken : nat → bool) :
  (∀ j, (1 ≤ j ≤ 999)%nat → taken j = true) →
  Forall (λ e, is_echo e ∨ e = LogError)
    (cmd_import_tail re_match set_iter repo verbose false taken).1.
Proof.
  intros Hall%find_base_None. unfold cmd_import_tail.
  destruct (orphan_report_Ok set_iter set_iter_perm repo verbose
              (dom (xl_txn_map repo))) as (warned & -> & Hecho).
  assert (Forall (λ e, is_echo e ∨ e = LogError) warned) as Hwarned.
  { eapply Forall_impl; [exact Hecho|]. by left. }
  case_bool_decide; simpl.
  - apply Forall_app. split; [done|]. apply Forall_singleton. by left.
  - destruct (classify_loop _ _ _ _ _) as [ts|e]; simpl; [|done].
    apply Forall_app. split; [done|]. unfold emit. rewrite Hall.
    apply Forall_singleton. by right.
Qed.

(** X18: a dry run writes no transaction file.  Its effects are what
    constructing the repository does (rewriting the include file
    [ledger.beancount], and printing the loader's errors if the ledger does
    not load), followed only by messages and printed entries. *)
Theorem dry_run_writes_no_transaction_file
    config ledger_data errors paths verbose taken :
  ∃ constructed rest,
    (import_command re_match set_iter splitext import_xl
       config ledger_data errors paths verbose true taken).1
    = (constructed ++ rest)%list
    ∧ (constructed = [] ∨ constructed = [ ScanBeancount ]
       ∨ constructed = [ ScanBeancount; PrintErrors errors ])
    ∧ Forall is_print rest.
Proof.
  pose proof (Repository_init_effects config ledger_data errors) as Hinit.
  unfold import_command.
  destruct (Repository_init config ledger_data errors)
    as [constructed [repo|e]]; simpl in *.
  - destruct (load_paths _ _ _ _ _) as [loaded|e]; simpl.
    + eexists constructed, _. split; [done|]. split; [done|].
      apply cmd_import_tail_dry_run.
    + exists constructed, []. by rewrite app_nil_r.
  - exists constructed, []. by rewrite app_nil_r.
Qed.

(** X19: a run that raises has written no transaction file and printed no
    entry: beyond what constructing the repository does, it has only printed
    messages. *)
Theorem failed_run_wrote_no_transaction_file
    config ledger_data errors paths verbose dry_run taken e :
  (import_command re_match set_iter splitext import_xl
     config ledger_data errors paths verbose dry_run taken).2 = Raise e →
  ∃ constructed rest,
    (import_command re_match set_iter splitext import_xl
       config ledger_data errors paths verbose dry_run taken).1
    = (constructed ++ rest)%list
    ∧ (constructed = [] ∨ constructed = [ ScanBeancount ]
       ∨ constructed = [ ScanBeancount; PrintErrors errors ])
    ∧ Forall is_echo rest.
Proof.
  pose proof (Repository_init_effects config ledger_data errors) as Hinit.
  unfold import_command.
  destruct (Repository_init config ledger_data errors)
    as [constructed [repo|e']]; simpl in *.
  - destruct (load_paths _ _ _ _ _) as [loaded|e']; simpl.
    + intros Hraise. eexists constructed, _. split; [done|]. split; [done|].
      by eapply cmd_import_tail_raises.
    + intros _. exists constructed, []. by rewrite app_nil_r.
  - intros _. exists constructed, []. by rewrite app_nil_r.
Qed.

(** X20: when the 999 sequence numbers of the day are all taken, a run that
    is not a dry run writes no transaction file and rewrites the include
    file only while constructing the repository: beyond that construction
    its effects are messages and the logged error. *)
Theorem no_free_number_writes_no_transaction_file
    config ledger_data errors paths verbose (taken : nat → bool) :
  (∀ j, (1 ≤ j ≤ 999)%nat → taken j = true) →
  ∃ constructed rest,
    (import_command re_match set_iter splitext import_xl
       config ledger_data errors paths verbose false taken).1
    = (constructed ++ rest)%list
    ∧ (constructed = [] ∨ constructed = [ ScanBeancount ]
       ∨ constructed = [ ScanBeancount; PrintErrors errors ])
    ∧ Forall (λ e, is_echo e ∨ e = LogError) rest.
Proof.
  intros Hall.
  pose proof (Repository_init_effects config ledger_data errors) as Hinit.
  unfold import_command.
  destruct (Repository_init config ledger_data errors)
    as [constructed [repo|e]]; simpl in *.
  - destruct (load_paths _ _ _ _ _) as [loaded|e]; simpl.
    + eexists constructed, _. split; [done|]. split; [done|].
      by apply cmd_import_tail_no_free_number.
    + exists constructed, []. by rewrite app_nil_r.
  - exists constructed, []. by rewrite app_nil_r.
Qed.

(** [cmd_import] is the loading of the decoded files followed by lines
    63-120. *)
Lemma cmd_import_is_tail repo files verbose dry_run taken :
  cmd_import re_match set_iter repo files verbose dry_run taken
  = match load_extracts repo files with
    | Raise e => ([], Raise e)
    | Ok repo' => cmd_import_tail re_match set_iter repo' verbose dry_run taken
    end.
Proof. reflexivity. Qed.

(** When the configuration and the ledger load and every directory entry is
    decoded, the whole command is the construction followed by [cmd_import]
    on the constructed repository and the decoded files. *)
Lemma import_command_decoded
    filters accounts ledger_data paths lists verbose dry_run taken :
  Forall2 (λ path txns, import_file splitext import_xl path = Ok (Some txns))
          paths lists →
  let repo :=
    {| config_filters := filters;
       config_accounts := accounts;
       bc_txn_map := index_ledger ledger_data;
       xl_txns := [];
       xl_txn_map := ∅ |} in
  import_command re_match set_iter splitext import_xl
    (Ok (filters, accounts)) ledger_data [] paths verbose dry_run taken
  = ((ScanBeancount
        :: (cmd_import re_match set_iter repo (Some <$> lists)
              verbose dry_run taken).1),
     (cmd_import re_match set_iter repo (Some <$> lists)
        verbose dry_run taken).2).
Proof.
  intros Hdecoded repo. unfold import_command, cmd_import, load_extracts.
  simpl. rewrite (load_paths_decoded splitext import_xl paths lists) by done.
  destruct (load_files (Some <$> lists) [] ∅) as [[xs m]|e]; simpl; done.
Qed.

End command_properties.

(** * The claims on the sample data *)

(** The sort keeps the order of transactions of one date. *)
Example sort_by_date_stable :
  sort_by_date [ default_txn_of row_a2;
                 default_txn_of row_b;
                 membership_txn_of row_b ]
  = [ default_txn_of row_b; membership_txn_of row_b; default_txn_of row_a2 ].
Proof. reflexivity. Qed.

Lemma elements_perm (s : gset string) : elements s ≡ₚ elements s.
Proof. reflexivity. Defined.

(** C1 as stated fails: the default handler's transaction for [row_a2] is
    flagged ["?"], and the run writes it to the manual-review file while
    the automatic file stays empty. *)
Lemma C1_counterexample :
  handle DEFAULT_HANDLER sample_repo row_a2 = Ok (default_txn_of row_a2)
  ∧ flag (default_txn_of row_a2) = "?"
  ∧ cmd_import sample_match elements sample_repo [ Some [ row_a2 ] ]
      false false no_files
    = ([ WriteEntries (1%nat, "_auto.beancount") [];
         WriteEntries (1%nat, "_manual.beancount") [ default_txn_of row_a2 ];
         ScanBeancount;
         Echo MsgTodos false;
         Echo (MsgFix (1%nat, "_manual.beancount")) false ], Ok ())
  ∧ ¬ (default_txn_of row_a2 ∈ auto_entries [ default_txn_of row_a2 ]).
Proof.
  split; [by vm_compute|]. split; [done|]. split; [by vm_compute|].
  intros [Hflag _]%list_elem_of_filter. discriminate Hflag.
Qed.

Lemma C1_witness :
  find_base no_files = Some 1%nat
  ∧ default_txn_of row_a2 ∈ [ default_txn_of row_a2; membership_txn_of row_b ]
  ∧ (flag (default_txn_of row_a2) = "?" →
     default_txn_of row_a2
       ∈ manual_entries [ default_txn_of row_a2; membership_txn_of row_b ]
     ∧ default_txn_of row_a2
       ∉ auto_entries [ default_txn_of row_a2; membership_txn_of row_b ]).
Proof.
  assert (find_base no_files = Some 1%nat) as Hbase by reflexivity.
  assert (default_txn_of row_a2
            ∈ [ default_txn_of row_a2; membership_txn_of row_b ]) as Hin
    by left.
  split; [exact Hbase|]. split; [exact Hin|].
  exact (proj1 (proj2 (proj2 (proj2
    (C1_confirmed_auto_provisional_manual (Regexp:=string)
       [ default_txn_of row_a2; membership_txn_of row_b ]
       no_files 1%nat (default_txn_of row_a2) Hbase Hin))))).
Defined.

(** C2 as stated fails: [row_a1] and [row_a2] share the reference ["A"] and
    [row_a1] is read first, yet the one transaction the run prints is what the
    default handler makes of [row_a2]; the transaction it would make of
    [row_a1] is not output. *)
Lemma C2_counterexample :
  load_extracts sample_repo [ Some [ row_a1; row_a2 ] ]
  = Ok (sample_loaded [ row_a1; row_a2 ])
  ∧ xl_txns (sample_loaded [ row_a1; row_a2 ]) = [ row_a1; row_a2 ]
  ∧ reference row_a1 = reference row_a2
  ∧ reference row_a1 ≠ ""
  ∧ cmd_import sample_match elements sample_repo [ Some [ row_a1; row_a2 ] ]
      false true no_files
    = ([ PrintEntries [ default_txn_of row_a2 ] ], Ok ())
  ∧ handled_as sample_match (sample_loaded [ row_a1; row_a2 ]) row_a2
      (default_txn_of row_a2)
  ∧ handled_as sample_match (sample_loaded [ row_a1; row_a2 ]) row_a1
      (default_txn_of row_a1)
  ∧ ¬ (default_txn_of row_a1 ∈ [ default_txn_of row_a2 ]).
Proof.
  split; [by vm_compute|]. split; [done|]. split; [done|]. split; [done|].
  split; [by vm_compute|]. split; [by vm_compute|]. split; [by vm_compute|].
  intros Hin%list_elem_of_singleton. discriminate Hin.
Qed.

Lemma C2_witness :
  load_extracts sample_repo [ Some [ row_a1; row_a2 ]; Some [ row_b ] ]
  = Ok (sample_loaded [ row_a1; row_a2; row_b ])
  ∧ xl_txns (sample_loaded [ row_a1; row_a2; row_b ])
    = ([] ++ row_a1 :: [] ++ row_a2 :: [ row_b ])%list
  ∧ reference row_a1 = reference row_a2
  ∧ reference row_a2 ≠ ""
  ∧ Forall (λ x, reference x ≠ reference row_a2) [ row_b ]
  ∧ classify_loop sample_match (sample_loaded [ row_a1; row_a2; row_b ])
      (elements (dom (xl_txn_map (sample_loaded [ row_a1; row_a2; row_b ]))
                 ∖ dom (bc_txn_map (sample_loaded [ row_a1; row_a2; row_b ]))))
      ∅ []
    = Ok [ default_txn_of row_a2; membership_txn_of row_b ]
  ∧ xl_txn_map (sample_loaded [ row_a1; row_a2; row_b ]) !! "A" = Some row_a2
  ∧ (∀ t,
        t ∈ sort_by_date [ default_txn_of row_a2; membership_txn_of row_b ] →
        meta t !! "reference" = Some (reference row_a2) →
        handled_as sample_match (sample_loaded [ row_a1; row_a2; row_b ])
          row_a2 t).
Proof.
  assert (load_extracts sample_repo [ Some [ row_a1; row_a2 ]; Some [ row_b ] ]
          = Ok (sample_loaded [ row_a1; row_a2; row_b ])) as Hload
    by (vm_compute; reflexivity).
  assert (xl_txns (sample_loaded [ row_a1; row_a2; row_b ])
          = ([] ++ row_a1 :: [] ++ row_a2 :: [ row_b ])%list) as Hxs
    by reflexivity.
  assert (reference row_a1 = reference row_a2) as Href by reflexivity.
  assert (reference row_a2 ≠ "") as Hne by (vm_compute; discriminate).
  assert (Forall (λ x, reference x ≠ reference row_a2) [ row_b ]) as Hafter
    by (repeat constructor; vm_compute; discriminate).
  assert (classify_loop sample_match (sample_loaded [ row_a1; row_a2; row_b ])
      (elements (dom (xl_txn_map (sample_loaded [ row_a1; row_a2; row_b ]))
                 ∖ dom (bc_txn_map (sample_loaded [ row_a1; row_a2; row_b ]))))
      ∅ []
    = Ok [ default_txn_of row_a2; membership_txn_of row_b ]) as Hts
    by (vm_compute; reflexivity).
  pose proof (C2_last_record_classified sample_match elements elements_perm
                sample_repo [ Some [ row_a1; row_a2 ]; Some [ row_b ] ]
                (sample_loaded [ row_a1; row_a2; row_b ])
                [] row_a1 [] row_a2 [ row_b ] Hload Hxs Href Hne Hafter)
    as (Hlast & Hrun).
  destruct (Hrun _ Hts) as (Hbuilt & _ & _).
  repeat (split; [assumption|]). exact Hbuilt.
Defined.

Lemma C3_witness :
  (∃ t, handle (Membership no_replacements "bob" 2500) sample_repo row_b = Ok t
        ∧ length (postings t) = 4%nat ∧ tags t = {[ "membership" ]})
  ∧ handle (Membership no_replacements "bob" 2500) sample_repo row_a1
    = handle DEFAULT_HANDLER sample_repo row_a1
  ∧ (∃ t, handle (Membership no_replacements "bob" 2500) sample_repo row_a1
          = Ok t
          ∧ length (postings t) = 2%nat ∧ tags t = ∅).
Proof.
  destruct (C3_membership_exact_fee no_replacements "bob" 2500
              sample_repo row_b) as [[Hshape [t Ht]] _];
    [reflexivity | by exists "Assets:Bank" |].
  destruct (C3_membership_exact_fee no_replacements "bob" 2500
              sample_repo row_a1) as [_ (Hsame & Hshape' & [t' Ht'])];
    [vm_compute; discriminate | by exists "Assets:Bank" |].
  split; [|split].
  - exists t. destruct (Hshape t Ht) as (? & ? & _). by repeat split.
  - exact Hsame.
  - exists t'. destruct (Hshape' t' Ht') as (? & ?). by repeat split.
Defined.

Lemma C5_witness :
  select_handler sample_match [ sample_filter ] row_b = handler sample_filter
  ∧ select_handler sample_match [ sample_filter ] row_a1 = DEFAULT_HANDLER
  ∧ (∃ t, handle (select_handler sample_match [ sample_filter ] row_a1)
            sample_repo row_a1 = Ok t
          ∧ flag t = "?").
Proof.
  destruct (C5_first_match_else_default sample_match [ sample_filter ]
              sample_repo row_b) as [Hfirst _].
  destruct (C5_first_match_else_default sample_match [ sample_filter ]
              sample_repo row_a1) as [_ Hnone].
  destruct Hnone as (Hdefault & Hflag & [t Ht]);
    [by repeat constructor | by exists "Assets:Bank" |].
  split; [|split].
  - apply (Hfirst [] sample_filter []); [reflexivity | constructor | reflexivity].
  - exact Hdefault.
  - exists t. split; [exact Ht | by apply Hflag].
Defined.

(** C6 as stated fails: the amount of [row_big] has 31 significant digits;
    the default handler posts it and, opposite, its negation rounded to 28
    digits, and the two amounts sum to -0.99 EUR. *)
Lemma C6_counterexample :
  handle DEFAULT_HANDLER sample_repo row_big = Ok big_txn
  ∧ currency_sum "EUR" (postings big_txn) = -99
  ∧ ¬ (∀ c, currency_sum c (postings big_txn) = 0).
Proof.
  split; [by vm_compute|]. split; [by vm_compute|].
  intros Hzero. specialize (Hzero "EUR"). vm_compute in Hzero.
  discriminate Hzero.
Qed.

Lemma C6_witness :
  Z.abs (amount (booked_record (Membership no_replacements "bob" 2500) row_b))
  < 10 ^ 28
  ∧ handle (Membership no_replacements "bob" 2500) sample_repo row_b
    = Ok (membership_txn_of row_b)
  ∧ ∀ c, currency_sum c (postings (membership_txn_of row_b)) = 0.
Proof.
  assert (Z.abs (amount (booked_record
                           (Membership no_replacements "bob" 2500) row_b))
          < 10 ^ 28) as Hfits by (vm_compute; reflexivity).
  assert (handle (Membership no_replacements "bob" 2500) sample_repo row_b
          = Ok (membership_txn_of row_b)) as Hh by (vm_compute; reflexivity).
  split; [exact Hfits|]. split; [exact Hh|].
  exact (C6_postings_balance_within_precision _ _ _ _ Hfits Hh).
Defined.

(** C7 as stated fails: [relabel_handler] replaces the reference of
    [row_a1] by ["X"], and the metadata of its transaction still holds
    ["A"], the reference before replacement. *)
Lemma C7_counterexample :
  handle relabel_handler sample_repo row_a1 = Ok relabelled_a1
  ∧ reference (dataclasses_replace row_a1 (replacements relabel_handler)) = "X"
  ∧ meta relabelled_a1 !! "reference" = Some "A"
  ∧ ¬ (meta relabelled_a1
       = {[ "reference" :=
              reference
                (dataclasses_replace row_a1 (replacements relabel_handler)) ]}).
Proof.
  split; [by vm_compute|]. split; [done|]. split; [by vm_compute|].
  intros Hmeta.
  assert (meta relabelled_a1 !! "reference" = Some "X") as HX
    by (rewrite Hmeta; apply lookup_singleton_eq).
  vm_compute in HX. discriminate HX.
Qed.

Lemma C7_witness :
  (∀ r member monthly_cost,
      relabel_handler = Membership r member monthly_cost →
      amount row_a1 = monthly_cost)
  ∧ handle relabel_handler sample_repo row_a1 = Ok relabelled_a1
  ∧ narration relabelled_a1
    = message (dataclasses_replace row_a1 (replacements relabel_handler))
  ∧ meta relabelled_a1 = {[ "reference" := reference row_a1 ]}.
Proof.
  assert (∀ r member monthly_cost,
             relabel_handler = Membership r member monthly_cost →
             amount row_a1 = monthly_cost) as Hself
    by (intros r member monthly_cost Heq; discriminate Heq).
  assert (handle relabel_handler sample_repo row_a1 = Ok relabelled_a1) as Hh
    by (vm_compute; reflexivity).
  destruct (C7_replaced_except_reference relabel_handler sample_repo row_a1
              relabelled_a1 Hself Hh) as (_ & _ & Hnarration & _ & Hmeta).
  split; [exact Hself|]. split; [exact Hh|]. split; assumption.
Defined.

Lemma C8_witness :
  load_extracts sample_repo_booked [ Some [ row_a1; row_none ] ]
  = Ok (sample_loaded_booked [ row_a1; row_none ])
  ∧ dom (xl_txn_map (sample_loaded_booked [ row_a1; row_none ]))
    ∖ dom (bc_txn_map (sample_loaded_booked [ row_a1; row_none ])) = ∅
  ∧ ∃ effects,
      cmd_import sample_match elements sample_repo_booked
        [ Some [ row_a1; row_none ] ] false false no_files
      = (effects, Ok ())
      ∧ last effects = Some (Echo MsgNoNew true)
      ∧ Forall is_echo effects.
Proof.
  assert (load_extracts sample_repo_booked [ Some [ row_a1; row_none ] ]
          = Ok (sample_loaded_booked [ row_a1; row_none ])) as Hload
    by (vm_compute; reflexivity).
  assert (dom (xl_txn_map (sample_loaded_booked [ row_a1; row_none ]))
          ∖ dom (bc_txn_map (sample_loaded_booked [ row_a1; row_none ])) = ∅)
    as Hnew by (vm_compute; reflexivity).
  split; [exact Hload|]. split; [exact Hnew|].
  exact (C8_nothing_new sample_match elements elements_perm
           sample_repo_booked [ Some [ row_a1; row_none ] ] false false
           no_files _ Hload Hnew).
Defined.

Lemma C9_witness :
  load_extracts sample_repo [ Some [ row_none; row_b ] ]
  = Ok (sample_loaded [ row_none; row_b ])
  ∧ row_none ∈ xl_txns (sample_loaded [ row_none; row_b ])
  ∧ reference row_none = ""
  ∧ (∀ k, xl_txn_map (sample_loaded [ row_none; row_b ]) !! k ≠ Some row_none)
  ∧ (row_none ∉ classified (sample_loaded [ row_none; row_b ]) [ ""; "B" ] ∅)
  ∧ (∀ ts,
        classify_loop sample_match (sample_loaded [ row_none; row_b ])
          [ ""; "B" ] ∅ [] = Ok ts →
        ∀ t, t ∈ sort_by_date ts → meta t !! "reference" ≠ Some "").
Proof.
  assert (load_extracts sample_repo [ Some [ row_none; row_b ] ]
          = Ok (sample_loaded [ row_none; row_b ])) as Hload
    by (vm_compute; reflexivity).
  assert (row_none ∈ xl_txns (sample_loaded [ row_none; row_b ])) as Hin
    by left.
  assert (reference row_none = "") as Hempty by reflexivity.
  split; [exact Hload|]. split; [exact Hin|]. split; [exact Hempty|].
  exact (C9_empty_reference_skipped sample_match sample_repo
           [ Some [ row_none; row_b ] ] _ row_none [ ""; "B" ]
           Hload Hin Hempty).
Defined.

Lemma C10_witness :
  load_extracts sample_repo [ Some [ row_a1; row_a2 ]; Some [ row_b ] ]
  = Ok (sample_loaded [ row_a1; row_a2; row_b ])
  ∧ dom (xl_txn_map (sample_loaded [ row_a1; row_a2; row_b ]))
    ∖ dom (bc_txn_map (sample_loaded [ row_a1; row_a2; row_b ])) ≠ ∅
  ∧ classify_loop sample_match (sample_loaded [ row_a1; row_a2; row_b ])
      (elements (dom (xl_txn_map (sample_loaded [ row_a1; row_a2; row_b ]))
                 ∖ dom (bc_txn_map (sample_loaded [ row_a1; row_a2; row_b ]))))
      ∅ []
    = Ok [ default_txn_of row_a2; membership_txn_of row_b ]
  ∧ length (sort_by_date [ default_txn_of row_a2; membership_txn_of row_b ])
    = size (dom (xl_txn_map (sample_loaded [ row_a1; row_a2; row_b ]))
            ∖ dom (bc_txn_map (sample_loaded [ row_a1; row_a2; row_b ])))
  ∧ NoDup (references
             (sort_by_date [ default_txn_of row_a2; membership_txn_of row_b ])).
Proof.
  assert (load_extracts sample_repo [ Some [ row_a1; row_a2 ]; Some [ row_b ] ]
          = Ok (sample_loaded [ row_a1; row_a2; row_b ])) as Hload
    by (vm_compute; reflexivity).
  assert (dom (xl_txn_map (sample_loaded [ row_a1; row_a2; row_b ]))
          ∖ dom (bc_txn_map (sample_loaded [ row_a1; row_a2; row_b ])) ≠ ∅)
    as Hnew by (vm_compute; discriminate).
  assert (classify_loop sample_match (sample_loaded [ row_a1; row_a2; row_b ])
      (elements (dom (xl_txn_map (sample_loaded [ row_a1; row_a2; row_b ]))
                 ∖ dom (bc_txn_map (sample_loaded [ row_a1; row_a2; row_b ]))))
      ∅ []
    = Ok [ default_txn_of row_a2; membership_txn_of row_b ]) as Hts
    by (vm_compute; reflexivity).
  destruct (C10_one_transaction_per_new_identifier sample_match elements
              elements_perm sample_repo
              [ Some [ row_a1; row_a2 ]; Some [ row_b ] ] false true no_files
              _ Hload Hnew) as [Hout _].
  destruct (Hout _ Hts) as (_ & Hlen & Hnodup & _).
  split; [exact Hload|]. split; [exact Hnew|]. split; [exact Hts|].
  split; assumption.
Defined.

(** ** The fatal paths on the sample data *)

(** A record whose account the registry does not know stops the run: the
    lookup raises before any entry is printed or written. *)
Example unknown_account_aborts :
  cmd_import sample_match elements
    {| config_filters := [ sample_filter ];
       config_accounts := Some ∅;
       bc_txn_map := ∅;
       xl_txns := [];
       xl_txn_map := ∅ |}
    [ Some [ row_b ] ] false true no_files
  = ([], Raise (KeyError "BE01")).
Proof. by vm_compute. Qed.

(** A directory entry that [import_file] skips stops the loading. *)
Example skipped_file_aborts :
  load_extracts sample_repo [ Some [ row_b ]; None ] = Raise TypeError.
Proof. reflexivity. Qed.

(** * The further properties on the sample data *)

Lemma handled_transaction_shape_witness :
  handle (Membership no_replacements "bob" 2500) sample_repo row_b
  = Ok (membership_txn_of row_b)
  ∧ links (membership_txn_of row_b) = ∅
  ∧ dom (meta (membership_txn_of row_b)) = {[ "reference" ]}.
Proof.
  assert (handle (Membership no_replacements "bob" 2500) sample_repo row_b
          = Ok (membership_txn_of row_b)) as Hh by (vm_compute; reflexivity).
  destruct (handled_transaction_shape _ _ _ _ Hh) as (Hlinks & _ & Hdom & _).
  split; [exact Hh|]. split; assumption.
Defined.

Lemma handle_returns_only_for_registered_account_witness :
  handle relabel_handler sample_repo row_a1 = Ok relabelled_a1
  ∧ ∃ accounts acct,
      config_accounts sample_repo = Some accounts
      ∧ accounts !! account (booked_record relabel_handler row_a1) = Some acct
      ∧ posting_account <$> postings relabelled_a1 !! 0%nat = Some acct.
Proof.
  assert (handle relabel_handler sample_repo row_a1 = Ok relabelled_a1) as Hh
    by (vm_compute; reflexivity).
  split; [exact Hh|].
  exact (handle_returns_only_for_registered_account _ _ _ _ Hh).
Defined.

Lemma money_postings_and_side_witness :
  handle DEFAULT_HANDLER sample_repo row_big = Ok big_txn
  ∧ ∃ p1 p2,
      postings big_txn !! 0%nat = Some p1
      ∧ postings big_txn !! 1%nat = Some p2
      ∧ units p2
        = mkAmount (Decimal_neg (amount (booked_record DEFAULT_HANDLER row_big)))
                   (currency (booked_record DEFAULT_HANDLER row_big))
      ∧ posting_account p2
        = ((if bool_decide
                 (0 < amount (booked_record DEFAULT_HANDLER row_big))
            then "Income:" else "Expenses:")
           ++ booked_label DEFAULT_HANDLER row_big)%string.
Proof.
  assert (handle DEFAULT_HANDLER sample_repo row_big = Ok big_txn) as Hh
    by (vm_compute; reflexivity).
  destruct (money_postings_and_side _ _ _ _ Hh)
    as (p1 & p2 & H1 & H2 & _ & _ & Hunits & _ & Hside).
  split; [exact Hh|]. exists p1, p2. split; [exact H1|].
  split; [exact H2|]. split; [exact Hunits | exact Hside].
Defined.

Lemma load_extracts_fails_on_skipped_file_only_witness :
  load_extracts sample_repo [ Some [ row_a1 ]; Some [ row_b ] ]
  = Ok (sample_loaded [ row_a1; row_b ])
  ∧ ∃ lists,
      [ Some [ row_a1 ]; Some [ row_b ] ] = Some <$> lists
      ∧ xl_txns (sample_loaded [ row_a1; row_b ]) = concat lists.
Proof.
  assert (load_extracts sample_repo [ Some [ row_a1 ]; Some [ row_b ] ]
          = Ok (sample_loaded [ row_a1; row_b ])) as Hload
    by (vm_compute; reflexivity).
  destruct (proj2 (load_extracts_fails_on_skipped_file_only sample_repo
                     [ Some [ row_a1 ]; Some [ row_b ] ]) _ Hload)
    as (lists & Hfiles & Hxs & _).
  split; [exact Hload|]. exists lists. split; assumption.
Defined.

Lemma extract_index_content_witness :
  load_extracts sample_repo [ Some [ row_a1; row_none ]; Some [ row_b ] ]
  = Ok (sample_loaded [ row_a1; row_none; row_b ])
  ∧ ∀ k, k ∈ dom (xl_txn_map (sample_loaded [ row_a1; row_none; row_b ]))
         ↔ k ≠ ""
           ∧ ∃ txn, txn ∈ xl_txns (sample_loaded [ row_a1; row_none; row_b ])
                    ∧ reference txn = k.
Proof.
  assert (load_extracts sample_repo
            [ Some [ row_a1; row_none ]; Some [ row_b ] ]
          = Ok (sample_loaded [ row_a1; row_none; row_b ])) as Hload
    by (vm_compute; reflexivity).
  split; [exact Hload|].
  exact (proj1 (extract_index_content _ _ _ Hload)).
Defined.

Lemma load_paths_all_decoded_witness :
  Forall2 (λ path txns,
             (sample_splitext path).2 = ".xlsx"
             ∧ sample_import_xl path = Ok txns)
          [ "extracts/jan.xlsx"; "extracts/feb.xlsx" ]
          [ [ row_a1; row_a2 ]; [ row_b ] ]
  ∧ load_paths sample_splitext sample_import_xl
      [ "extracts/jan.xlsx"; "extracts/feb.xlsx" ] [] ∅
    = Ok (concat [ [ row_a1; row_a2 ]; [ row_b ] ],
          index_txns (concat [ [ row_a1; row_a2 ]; [ row_b ] ]) ∅).
Proof.
  assert (Forall2 (λ path txns,
             (sample_splitext path).2 = ".xlsx"
             ∧ sample_import_xl path = Ok txns)
          [ "extracts/jan.xlsx"; "extracts/feb.xlsx" ]
          [ [ row_a1; row_a2 ]; [ row_b ] ]) as Hall
    by (repeat constructor).
  split; [exact Hall|].
  exact (load_paths_all_decoded sample_splitext sample_import_xl _ _ Hall).
Defined.

Lemma load_paths_stops_at_first_failure_witness :
  Forall (λ q, ∃ txns,
            import_file sample_splitext sample_import_xl q = Ok (Some txns))
         [ "extracts/jan.xlsx" ]
  ∧ (sample_splitext "extracts/notes.txt").2 ≠ ".xlsx"
  ∧ load_paths sample_splitext sample_import_xl
      ([ "extracts/jan.xlsx" ] ++ "extracts/notes.txt"
         :: [ "extracts/feb.xlsx" ]) [] ∅
    = Raise TypeError.
Proof.
  assert (Forall (λ q, ∃ txns,
            import_file sample_splitext sample_import_xl q = Ok (Some txns))
         [ "extracts/jan.xlsx" ]) as Hpre
    by (repeat constructor; exists [ row_a1; row_a2 ]; reflexivity).
  assert ((sample_splitext "extracts/notes.txt").2 ≠ ".xlsx") as Hext
    by (vm_compute; discriminate).
  split; [exact Hpre|]. split; [exact Hext|].
  exact (proj1 (load_paths_stops_at_first_failure sample_splitext
                  sample_import_xl _ "extracts/notes.txt"
                  [ "extracts/feb.xlsx" ] [] ∅ Hpre) Hext).
Defined.

Lemma ledger_index_content_witness :
  index_ledger sample_ledger !! "A" = Some (default_txn_of row_a1)
  ∧ DTransaction (default_txn_of row_a1) ∈ sample_ledger
  ∧ meta (default_txn_of row_a1) !! "reference" = Some "A".
Proof.
  assert (index_ledger sample_ledger !! "A" = Some (default_txn_of row_a1))
    as Hget by (vm_compute; reflexivity).
  split; [exact Hget|].
  exact (proj2 (ledger_index_content sample_ledger) _ _ Hget).
Defined.

Lemma ledger_index_last_wins_witness :
  meta (ledger_entry "A") !! "reference" = Some "A"
  ∧ Forall (λ d, ∀ u, d = DTransaction u → meta u !! "reference" ≠ Some "A")
           [ DTransaction (ledger_entry "") ]
  ∧ index_ledger ([ DOther ] ++ DTransaction (ledger_entry "A")
                     :: [ DTransaction (ledger_entry "") ]) !! "A"
    = Some (ledger_entry "A").
Proof.
  assert (meta (ledger_entry "A") !! "reference" = Some "A") as Href
    by (vm_compute; reflexivity).
  assert (Forall (λ d, ∀ u, d = DTransaction u →
                            meta u !! "reference" ≠ Some "A")
            [ DTransaction (ledger_entry "") ]) as Hpost.
  { repeat constructor. intros u [= <-]. vm_compute. discriminate. }
  split; [exact Href|]. split; [exact Hpost|].
  exact (ledger_index_last_wins [ DOther ] _ _ _ Href Hpost).
Defined.

Lemma rules_after_a_match_are_dead_witness :
  test sample_match sample_filter row_b = true
  ∧ select_handler sample_match
      ([] ++ sample_filter :: [ mkFilter [] [] [] [] relabel_handler ]) row_b
    = select_handler sample_match ([] ++ sample_filter :: []) row_b.
Proof.
  assert (test sample_match sample_filter row_b = true) as Htest
    by reflexivity.
  split; [exact Htest|].
  exact (proj2 (rules_after_a_match_are_dead sample_match) [] sample_filter
           [ mkFilter [] [] [] [] relabel_handler ] [] row_b Htest).
Defined.

Lemma non_matcher_values_reject_witness :
  [ FOther; FOther ] ≠ ([] : list (StrFilter (Regexp:=string)))
  ∧ Forall (λ item, item = FOther)
           ([ FOther; FOther ] : list (StrFilter (Regexp:=string)))
  ∧ _test1 sample_match "Bob" [ FOther; FOther ] = false.
Proof.
  assert ([ FOther; FOther ] ≠ ([] : list (StrFilter (Regexp:=string))))
    as Hne by discriminate.
  assert (Forall (λ item, item = FOther)
            ([ FOther; FOther ] : list (StrFilter (Regexp:=string))))
    as Hother by (repeat constructor).
  split; [exact Hne|]. split; [exact Hother|].
  exact (proj1 (non_matcher_values_reject sample_match _ "Bob" Hne Hother)).
Defined.

Lemma failed_run_wrote_no_transaction_file_witness :
  (∀ s : gset string, elements s ≡ₚ elements s)
  ∧ (import_command sample_match elements sample_splitext sample_import_xl
       sample_config_no_accounts [ DTransaction (ledger_entry "A") ] []
       [ "extracts/jan.xlsx"; "extracts/feb.xlsx" ] false false no_files).2
    = Raise (KeyError "accounts")
  ∧ ∃ constructed rest,
      (import_command sample_match elements sample_splitext sample_import_xl
         sample_config_no_accounts [ DTransaction (ledger_entry "A") ] []
         [ "extracts/jan.xlsx"; "extracts/feb.xlsx" ] false false no_files).1
      = (constructed ++ rest)%list
      ∧ (constructed = [] ∨ constructed = [ ScanBeancount ]
         ∨ constructed = [ ScanBeancount; PrintErrors [] ])
      ∧ Forall is_echo rest.
Proof.
  assert ((import_command sample_match elements sample_splitext
             sample_import_xl sample_config_no_accounts
             [ DTransaction (ledger_entry "A") ] []
             [ "extracts/jan.xlsx"; "extracts/feb.xlsx" ]
             false false no_files).2
          = Raise (KeyError "accounts")) as Hraise
    by (vm_compute; reflexivity).
  split; [exact elements_perm|]. split; [exact Hraise|].
  exact (failed_run_wrote_no_transaction_file sample_match elements
           elements_perm sample_splitext sample_import_xl
           _ _ _ _ _ _ _ _ Hraise).
Defined.

Lemma no_free_number_writes_no_transaction_file_witness :
  (∀ s : gset string, elements s ≡ₚ elements s)
  ∧ (∀ j, (1 ≤ j ≤ 999)%nat → all_taken j = true)
  ∧ ∃ constructed rest,
      (import_command sample_match elements sample_splitext sample_import_xl
         sample_config [ DTransaction (ledger_entry "A") ] []
         [ "extracts/jan.xlsx"; "extracts/feb.xlsx" ] false false all_taken).1
      = (constructed ++ rest)%list
      ∧ (constructed = [] ∨ constructed = [ ScanBeancount ]
         ∨ constructed = [ ScanBeancount; PrintErrors [] ])
      ∧ Forall (λ e, is_echo e ∨ e = LogError) rest.
Proof.
  assert (∀ j, (1 ≤ j ≤ 999)%nat → all_taken j = true) as Hall
    by (intros j _; reflexivity).
  split; [exact elements_perm|]. split; [exact Hall|].
  exact (no_free_number_writes_no_transaction_file sample_match elements
           elements_perm sample_splitext sample_import_xl
           sample_config [ DTransaction (ledger_entry "A") ] []
           [ "extracts/jan.xlsx"; "extracts/feb.xlsx" ] false all_taken Hall).
Defined.

Lemma iteration_order_only_rearranges_witness :
  load_extracts sample_repo [ Some [ row_a1; row_a2 ]; Some [ row_b ] ]
  = Ok (sample_loaded [ row_a1; row_a2; row_b ])
  ∧ classify_loop sample_match (sample_loaded [ row_a1; row_a2; row_b ])
      [ "A"; "B" ] ∅ []
    = Ok [ default_txn_of row_a2; membership_txn_of row_b ]
  ∧ ∃ ts2,
      classify_loop sample_match (sample_loaded [ row_a1; row_a2; row_b ])
        [ "B"; "A" ] ∅ [] = Ok ts2
      ∧ [ default_txn_of row_a2; membership_txn_of row_b ] ≡ₚ ts2.
Proof.
  assert (load_extracts sample_repo [ Some [ row_a1; row_a2 ]; Some [ row_b ] ]
          = Ok (sample_loaded [ row_a1; row_a2; row_b ])) as Hload
    by (vm_compute; reflexivity).
  assert (elements
            (dom (xl_txn_map (sample_loaded [ row_a1; row_a2; row_b ]))
             ∖ dom (bc_txn_map (sample_loaded [ row_a1; row_a2; row_b ])))
          = [ "A"; "B" ]) as Hnew by (vm_compute; reflexivity).
  assert ([ "A"; "B" ] ≡ₚ
          elements
            (dom (xl_txn_map (sample_loaded [ row_a1; row_a2; row_b ]))
             ∖ dom (bc_txn_map (sample_loaded [ row_a1; row_a2; row_b ]))))
    as Hids1 by (rewrite Hnew; reflexivity).
  assert ([ "B"; "A" ] ≡ₚ
          elements
            (dom (xl_txn_map (sample_loaded [ row_a1; row_a2; row_b ]))
             ∖ dom (bc_txn_map (sample_loaded [ row_a1; row_a2; row_b ]))))
    as Hids2 by (rewrite Hnew; apply Permutation_swap).
  assert (classify_loop sample_match (sample_loaded [ row_a1; row_a2; row_b ])
            [ "A"; "B" ] ∅ []
          = Ok [ default_txn_of row_a2; membership_txn_of row_b ]) as Hts1
    by (vm_compute; reflexivity).
  destruct (iteration_order_only_rearranges sample_match sample_repo _ _
              [ "A"; "B" ] [ "B"; "A" ] _ Hload Hids1 Hids2 Hts1)
    as (ts2 & Hts2 & Hperm & _).
  split; [exact Hload|]. split; [exact Hts1|]. exists ts2.
  split; assumption.
Defined.


Lemma empty_ledger_reference_always_warns_witness :
  load_extracts sample_repo_ledger [ Some [ row_a1 ] ]
  = Ok {| config_filters := [ sample_filter ];
          config_accounts := Some {[ "BE01" := "Assets:Bank" ]};
          bc_txn_map := index_ledger sample_ledger;
          xl_txns := [ row_a1 ];
          xl_txn_map := index_txns [ row_a1 ] ∅ |}
  ∧ "" ∈ dom (bc_txn_map sample_repo_ledger)
  ∧ ∃ rest,
      (cmd_import sample_match elements sample_repo_ledger
         [ Some [ row_a1 ] ] false false no_files).1
      = Echo MsgOrphans (negb false) :: rest.
Proof.
  assert (load_extracts sample_repo_ledger [ Some [ row_a1 ] ]
          = Ok {| config_filters := [ sample_filter ];
                  config_accounts := Some {[ "BE01" := "Assets:Bank" ]};
                  bc_txn_map := index_ledger sample_ledger;
                  xl_txns := [ row_a1 ];
                  xl_txn_map := index_txns [ row_a1 ] ∅ |}) as Hload
    by reflexivity.
  assert ("" ∈ dom (bc_txn_map sample_repo_ledger)) as Hempty.
  { apply elem_of_dom. exists (ledger_entry ""). vm_compute. reflexivity. }
  split; [exact Hload|]. split; [exact Hempty|].
  exact (empty_ledger_reference_always_warns sample_match elements
           elements_perm _ _ _ false false no_files Hload Hempty).
Defined.

Lemma output_file_by_handler_witness :
  handle (Membership no_replacements "bob" 2500) sample_repo row_a1
  = Ok (default_txn_of row_a1)
  ∧ default_txn_of row_a1
    ∈ [ membership_txn_of row_b; default_txn_of row_a1 ]
  ∧ (default_txn_of row_a1
       ∈ manual_entries [ membership_txn_of row_b; default_txn_of row_a1 ]
     ↔ is_Handler (Membership no_replacements "bob" 2500) = true
       ∨ declines (Membership no_replacements "bob" 2500) row_a1 = true).
Proof.
  assert (handle (Membership no_replacements "bob" 2500) sample_repo row_a1
          = Ok (default_txn_of row_a1)) as Hh by (vm_compute; reflexivity).
  assert (default_txn_of row_a1
            ∈ [ membership_txn_of row_b; default_txn_of row_a1 ]) as Hin
    by (right; left).
  split; [exact Hh|]. split; [exact Hin|].
  exact (proj2 (output_file_by_handler _ _ _ _ _ Hh Hin)).
Defined.

Lemma orphan_report_lists_every_orphan_witness :
  (∀ s : gset string, elements s ≡ₚ elements s)
  ∧ ∃ lines,
      orphan_report elements sample_repo_ledger true
        (dom (bc_txn_map sample_repo_ledger)) {[ "A" ]}
      = Ok (if bool_decide
                 (dom (bc_txn_map sample_repo_ledger) ∖ {[ "A" ]} = ∅)
            then []
            else if true then Echo MsgOrphans false :: lines
            else [ Echo MsgOrphans true; Echo MsgPassV true ]).
Proof.
  split; [exact elements_perm|].
  destruct (orphan_report_lists_every_orphan elements elements_perm
              sample_repo_ledger true {[ "A" ]}) as (lines & _ & Hreport).
  exists lines. exact Hreport.
Defined.

Lemma dry_run_writes_no_transaction_file_witness :
  (∀ s : gset string, elements s ≡ₚ elements s)
  ∧ ∃ constructed rest,
      (import_command sample_match elements sample_splitext sample_import_xl
         sample_config [ DTransaction (ledger_entry "A") ] []
         [ "extracts/jan.xlsx"; "extracts/feb.xlsx" ] true true no_files).1
      = (constructed ++ rest)%list
      ∧ (constructed = [] ∨ constructed = [ ScanBeancount ]
         ∨ constructed = [ ScanBeancount; PrintErrors [] ])
      ∧ Forall is_print rest.
Proof.
  split; [exact elements_perm|].
  exact (dry_run_writes_no_transaction_file sample_match elements
           elements_perm sample_splitext sample_import_xl
           sample_config [ DTransaction (ledger_entry "A") ] []
           [ "extracts/jan.xlsx"; "extracts/feb.xlsx" ] true no_files).
Defined.
